(** * Thirukural wallpaper generator: a shallow embedding of [utils.py]

    The development follows the Python module function by function:
    - [PyStr]: Python text as sequences of code points, with [str.split],
      [str.join] and the membership test the module uses;
    - [Py]: results of calls that may raise, and JSON values as [json.load]
      builds them;
    - [DataProvider]: [load_thirukural_data] and [get_random_kural];
    - [Composer]: [create_wallpaper_image] with its nested helper
      [draw_wrapped_centered_text], over a canvas recorded as the list of
      drawing operations, with Python floats as binary64 primitive floats. *)

From Stdlib Require Import ZArith NArith Lia Bool Ascii String.
From Stdlib Require Import Floats Uint63 List.
Import ListNotations.

Set Warnings "-inexact-float,-register-all".

(* ------------------------------------------------------------------ *)
(** ** Python text *)
(* ------------------------------------------------------------------ *)

Module PyStr.

(** A Python [str] is a sequence of Unicode code points. *)
Definition char := N.
Definition str := list char.

(** ASCII literals of the source, read code point by code point. *)
Fixpoint lit (s : string) : str :=
  match s with
  | EmptyString => []
  | String a r => N_of_ascii a :: lit r
  end.

Definition SPACE : char := 32%N.
Definition NEWLINE : char := 10%N.

(** [str.isspace] on one code point, as CPython's [_PyUnicode_IsWhitespace]:
    the characters [str.split()] without argument treats as separators. *)
Definition isspace (c : char) : bool :=
  ((9 <=? c) && (c <=? 13) || (28 <=? c) && (c <=? 32)
   || (c =? 133) || (c =? 160) || (c =? 5760)
   || (8192 <=? c) && (c <=? 8202)
   || (c =? 8232) || (c =? 8233) || (c =? 8239) || (c =? 8287)
   || (c =? 12288))%N.

(** [text.split()]: the maximal runs of non-whitespace characters, in order.
    [cur] is the run being read. *)
Fixpoint split_from (cur : str) (s : str) : list str :=
  match s with
  | [] => match cur with [] => [] | _ => [cur] end
  | c :: r =>
      if isspace c
      then match cur with
           | [] => split_from [] r
           | _ => cur :: split_from [] r
           end
      else split_from (cur ++ [c]) r
  end.

Definition split (s : str) : list str := split_from [] s.

(** [text.split(sep)] for a one-character separator: every occurrence cuts,
    empty pieces are kept, the result is never empty. *)
Fixpoint split_on_from (sep : char) (cur : str) (s : str) : list str :=
  match s with
  | [] => [cur]
  | c :: r =>
      if (c =? sep)%N then cur :: split_on_from sep [] r
      else split_on_from sep (cur ++ [c]) r
  end.

Definition split_on (sep : char) (s : str) : list str := split_on_from sep [] s.

(** [sep.join(parts)]. *)
Fixpoint join (sep : str) (parts : list str) : str :=
  match parts with
  | [] => []
  | [p] => p
  | p :: rest => p ++ sep ++ join sep rest
  end.

(** [c in s] for a one-character [c]. *)
Definition contains (c : char) (s : str) : bool :=
  existsb (fun d => (d =? c)%N) s.

(** A word: what [split] can return as one item. *)
Definition is_word (w : str) : Prop :=
  w <> [] /\ forall c, In c w -> isspace c = false.

End PyStr.

(* ------------------------------------------------------------------ *)
(** ** Calls that may raise, and JSON values *)
(* ------------------------------------------------------------------ *)

Module Py.

(** The built-in exceptions the modelled calls raise. *)
Inductive exn : Type :=
| IndexError
| KeyError (key : string)
| TypeError
| ValueError
| OSError
| JSONDecodeError
| UnicodeError
| OverflowError.

Inductive result (A : Type) : Type :=
| Ok (a : A)
| Raise (e : exn).
Arguments Ok {A} a.
Arguments Raise {A} e.

Definition bind {A B} (r : result A) (k : A -> result B) : result B :=
  match r with
  | Ok a => k a
  | Raise e => Raise e
  end.

Declare Scope py_scope.
Delimit Scope py_scope with py.
Notation "x <- c ;; k" := (bind c (fun x => k))
  (at level 61, c at next level, right associativity) : py_scope.
Notation "' p <- c ;; k" := (bind c (fun x => let 'p := x in k))
  (at level 61, p pattern, c at next level, right associativity) : py_scope.

(** A [dict] with string keys, in insertion order. *)
Definition dict (V : Type) := list (string * V).

Fixpoint dict_lookup {V} (k : string) (d : dict V) : option V :=
  match d with
  | [] => None
  | (k', v) :: r => if String.eqb k k' then Some v else dict_lookup k r
  end.

(** [d.get(k, default)] *)
Definition dict_get {V} (d : dict V) (k : string) (default : V) : V :=
  match dict_lookup k d with
  | Some v => v
  | None => default
  end.

(** What [json.load] returns. *)
Inductive json : Type :=
| JNull
| JBool (b : bool)
| JInt (z : Z)
| JFloat (f : float)
| JStr (s : PyStr.str)
| JArr (items : list json)
| JObj (fields : dict json).

(** [value[key]] for a string key: only a [dict] can be indexed that way. *)
Definition getitem (value : json) (key : string) : result json :=
  match value with
  | JObj fields =>
      match dict_lookup key fields with
      | Some v => Ok v
      | None => Raise (KeyError key)
      end
  | _ => Raise TypeError
  end.

End Py.

(* ------------------------------------------------------------------ *)
(** ** The data provider *)
(* ------------------------------------------------------------------ *)

Module DataProvider.
Import Py.
Local Open Scope py_scope.

Section Load.

(** [open(json_path, 'r', encoding='utf-8')] followed by reading the file:
    the text of the file, or the error raised on the way. *)
Variable read_text : string -> result PyStr.str.

(** The JSON decoder behind [json.load]. *)
Variable json_decode : PyStr.str -> result json.

Definition load_thirukural_data (json_path : string) : result json :=
  text <- read_text json_path ;;
  data <- json_decode text ;;
  getitem data "features".

End Load.

Section Pick.

(** [random.choice] draws its index with [_randbelow (len seq)]. *)
Variable randbelow : nat -> nat.

(** [random.choice(seq)] *)
Definition random_choice {A} (seq : list A) : result A :=
  match seq with
  | [] => Raise IndexError
  | _ =>
      match nth_error seq (randbelow (length seq)) with
      | Some x => Ok x
      | None => Raise IndexError
      end
  end.

Definition get_random_kural (kurals : list json) : result json :=
  random_kural <- random_choice kurals ;;
  getitem random_kural "properties".

End Pick.

End DataProvider.

(* ------------------------------------------------------------------ *)
(** ** Numbers: Python [int] as [Z], Python [float] as binary64 *)
(* ------------------------------------------------------------------ *)

Module PyNum.
Import Py.

(** [float(z)] for an [int] of magnitude below 2^63 (exact up to 2^53, which
    covers every pixel coordinate and font size). *)
Definition float_of_Z (z : Z) : float :=
  if (z <? 0)%Z
  then PrimFloat.opp (PrimFloat.of_uint63 (Uint63.of_Z (- z)))
  else PrimFloat.of_uint63 (Uint63.of_Z z).

(** [int(x)]: truncation toward zero; infinities and NaN raise. *)
Definition int_of_float (x : float) : result Z :=
  match Prim2SF x with
  | S754_zero _ => Ok 0%Z
  | S754_finite s m e =>
      let v := Z.shiftl (Zpos m) e in
      Ok (if s then (- v)%Z else v)
  | S754_infinity _ => Raise OverflowError
  | S754_nan => Raise ValueError
  end.

End PyNum.

(* ------------------------------------------------------------------ *)
(** ** The canvas *)
(* ------------------------------------------------------------------ *)

Module Canvas.
Import PyStr.

(** A colour tuple: [(r, g, b)] or [(r, g, b, a)]. *)
Definition color := list Z.

(** A loaded typeface: the file it came from ([None] for the built-in one)
    and its [size] attribute. *)
Record font : Type := mkFont { font_file : option string; font_size : Z }.

(** What the module does to the image, in order. *)
Inductive draw_op : Type :=
| Rectangle (x0 y0 x1 y1 : Z) (fill : color)
| PasteSolid (fill : color)
| PasteRoundedRectangle (x0 y0 x1 y1 radius : Z) (fill : color)
| Text (x : Z) (y : float) (line : str) (fill : color) (f : font).

Record image : Type := mkImage {
  img_width : Z;
  img_height : Z;
  img_ops : list draw_op
}.

Definition put (op : draw_op) (img : image) : image :=
  mkImage (img_width img) (img_height img) (img_ops img ++ [op]).

Definition color_eqb (a b : color) : bool :=
  if list_eq_dec Z.eq_dec a b then true else false.

(** The lines of text a list of operations draws in a given colour, in
    drawing order. *)
Definition lines_in_color (fill : color) (ops : list draw_op) : list str :=
  flat_map (fun op =>
              match op with
              | Text _ _ line c _ => if color_eqb c fill then [line] else []
              | _ => []
              end) ops.

End Canvas.

(* ------------------------------------------------------------------ *)
(** ** The image composer *)
(* ------------------------------------------------------------------ *)

Module Composer.
Import PyStr Py PyNum Canvas.
Local Open Scope py_scope.
Local Open Scope Z_scope.

(** The record handed to the composer: the [properties] dictionary, its
    fields read as text. *)
Definition record := dict str.

(** [parts[i]] *)
Definition item (parts : list str) (i : nat) : result str :=
  match nth_error parts i with
  | Some p => Ok p
  | None => Raise IndexError
  end.

(** Lines 85 to 91: the two displayed lines of the couplet. *)
Definition extract_kural_lines (kural_data : record) : result (str * str) :=
  let tamil1 := dict_get kural_data "kural_tamil1" [] in
  kural_line1 <-
    (if contains NEWLINE tamil1
     then item (split_on NEWLINE tamil1) 0
     else Ok (dict_get kural_data "kural_bamini1" [])) ;;
  kural_line2 <-
    (if contains NEWLINE tamil1
        && (1 <? Z.of_nat (List.length (split_on NEWLINE tamil1)))
     then item (split_on NEWLINE tamil1) 1
     else Ok (dict_get kural_data "kural_bamini2" [])) ;;
  match kural_line1 with
  | [] => Ok (dict_get kural_data "kural_bamini1" [],
              dict_get kural_data "kural_bamini2" [])
  | _ => Ok (kural_line1, kural_line2)
  end.

(** Line 197: [f"{kural_line1}\n{kural_line2}"]. *)
Definition full_kural (kural_line1 kural_line2 : str) : str :=
  kural_line1 ++ [NEWLINE] ++ kural_line2.

(** Lines 71 to 77: the colour of scanline [y]. *)
Definition gradient_color (y height : Z) : result color :=
  let ratio := (float_of_Z y / float_of_Z height)%float in
  r <- int_of_float (float_of_Z 26 + float_of_Z (15 - 26) * ratio)%float ;;
  g <- int_of_float (float_of_Z 26 + float_of_Z (33 - 26) * ratio)%float ;;
  b <- int_of_float (float_of_Z 46 + float_of_Z (62 - 46) * ratio)%float ;;
  Ok [r; g; b].

Fixpoint gradient_rows (width height : Z) (ys : list nat) (img : image)
  : result image :=
  match ys with
  | [] => Ok img
  | y :: rest =>
      let y := Z.of_nat y in
      fill <- gradient_color y height ;;
      gradient_rows width height rest
                    (put (Rectangle 0 y width (y + 1) fill) img)
  end.

(** [Image.new('RGB', (width, height))] refuses negative sizes. *)
Definition image_new (width height : Z) : result image :=
  if (width <? 0) || (height <? 0) then Raise ValueError
  else Ok (mkImage width height []).

Definition tamil_fonts : list string :=
  [ "C:\Windows\Fonts\Nirmala.ttc";
    "C:\Windows\Fonts\Nirmala.ttf";
    "C:\Windows\Fonts\Latha.ttf";
    "C:\Windows\Fonts\Vijaya.ttf" ]%string.

Definition card_margin : Z := 150.

Definition warm_orange : color := [244; 162; 97].
Definition pure_white : color := [255; 255; 255].
Definition muted_teal : color := [168; 218; 220; 200].
Definition logo_red : color := [233; 69; 96].

Section WithPillow.

(** [draw.textbbox((0, 0), text, font=font)]: the bounding box
    [(left, top, right, bottom)] of the text in that font. *)
Variable textbbox : font -> str -> result (Z * Z * Z * Z).

(** [ImageFont.truetype(path, size)] and [ImageFont.load_default()]. *)
Variable truetype : string -> Z -> result font.
Variable load_default : font.

(** [str.upper]. *)
Variable upper : str -> str.

(** [bbox[2] - bbox[0]] of [draw.textbbox((0, 0), text, font=font)]. *)
Definition text_width (f : font) (text : str) : result Z :=
  bbox <- textbbox f text ;;
  let '(x0, _, x1, _) := bbox in Ok (x1 - x0).

(** Lines 106 to 126: the first candidate that loads at all four sizes;
    only [OSError] moves on to the next candidate. *)
Fixpoint load_fonts (paths : list string)
  : result (font * font * font * font) :=
  match paths with
  | [] => Ok (load_default, load_default, load_default, load_default)
  | font_path :: rest =>
      match (font_title <- truetype font_path 42 ;;
             font_subtitle <- truetype font_path 28 ;;
             font_label <- truetype font_path 24 ;;
             font_tiny <- truetype font_path 18 ;;
             Ok (font_title, font_subtitle, font_label, font_tiny)) with
      | Ok fonts => Ok fonts
      | Raise OSError => load_fonts rest
      | Raise e => Raise e
      end
  end.

(** Lines 148 to 156: the loop over the words. *)
Fixpoint wrap_loop (f : font) (max_width : Z) (words : list str)
         (lines : list str) (current_line : list str)
  : result (list str * list str) :=
  match words with
  | [] => Ok (lines, current_line)
  | word :: rest =>
      let test_line := join [SPACE] (current_line ++ [word]) in
      w <- text_width f test_line ;;
      if w <=? max_width
      then wrap_loop f max_width rest lines (current_line ++ [word])
      else wrap_loop f max_width rest
                     (lines ++ [join [SPACE] current_line]) [word]
  end.

(** Lines 144 to 158: the lines of a text block. *)
Definition wrap_lines (f : font) (max_width : Z) (text : str)
  : result (list str) :=
  st <- wrap_loop f max_width (split text) [] [] ;;
  let '(lines, current_line) := st in
  match current_line with
  | [] => Ok lines
  | _ => Ok (lines ++ [join [SPACE] current_line])
  end.

(** Lines 165 to 169: one [draw.text] per line, [i] counting from 0. *)
Fixpoint draw_lines (width : Z) (f : font) (fill : color)
         (start_y line_height : float) (i : nat) (lines : list str)
         (img : image) : result image :=
  match lines with
  | [] => Ok img
  | line :: rest =>
      line_width <- text_width f line ;;
      let x := (width - line_width) / 2 in
      let y := (start_y + float_of_Z (Z.of_nat i) * line_height)%float in
      draw_lines width f fill start_y line_height (S i) rest
                 (put (Text x y line fill f) img)
  end.

(** Lines 143 to 171. [width] is the enclosing function's parameter. *)
Definition draw_wrapped_centered_text (width : Z) (img : image)
           (text : str) (y_center : float) (f : font) (fill : color)
           (max_width : Z) : result (image * float) :=
  lines <- wrap_lines f max_width text ;;
  let line_height := (float_of_Z (font_size f) * 1.3)%float in
  let total_height :=
    (float_of_Z (Z.of_nat (List.length lines)) * line_height)%float in
  let start_y := (y_center - total_height / 2)%float in
  img' <- draw_lines width f fill start_y line_height 0 lines img ;;
  Ok (img', total_height).

(** Line 176: the header text. The separator is the three characters the
    source file holds between the two fields. *)
Definition header_text (kural_number adhikaram : str) : str :=
  lit "THIRUKKURAL " ++ kural_number
      ++ [SPACE; 226%N; 8364%N; 162%N; SPACE] ++ upper adhikaram.

(** Lines 66 to 215: everything [create_wallpaper_image] does before it
    saves. *)
Definition compose (kural_data : record) (width height : Z)
  : result image :=
  img <- image_new width height ;;
  img <- gradient_rows width height (seq 0 (Z.to_nat height)) img ;;
  let img := put (PasteSolid [15; 52; 96; 77]) img in
  ls <- extract_kural_lines kural_data ;;
  let '(kural_line1, kural_line2) := ls in
  let kural_explanation := dict_get kural_data "kuralvilakam_english" [] in
  let kural_number := dict_get kural_data "kural_no" [] in
  let adhikaram := dict_get kural_data "adhikarm_english" [] in
  fonts <- load_fonts tamil_fonts ;;
  let '(font_title, font_subtitle, font_label, font_tiny) := fonts in
  let img := put (PasteRoundedRectangle card_margin card_margin
                    (width - card_margin) (height - card_margin) 30
                    [15; 52; 96; 160]) img in
  let header_y := card_margin + 60 in
  r1 <- draw_wrapped_centered_text width img
          (header_text kural_number adhikaram)
          (float_of_Z header_y) font_label warm_orange
          (width - (card_margin * 2 + 100)) ;;
  r2 <- draw_wrapped_centered_text width (fst r1)
          kural_explanation
          (float_of_Z (height / 2 - 40)) font_title pure_white
          (width - (card_margin * 2 + 150)) ;;
  let title_height := snd r2 in
  let tamil_y :=
    (float_of_Z (height / 2) + title_height / 2 + float_of_Z 50)%float in
  r3 <- draw_wrapped_centered_text width (fst r2)
          (full_kural kural_line1 kural_line2)
          tamil_y font_subtitle muted_teal
          (width - (card_margin * 2 + 200)) ;;
  let footer_y := height - card_margin - 80 in
  r4 <- draw_wrapped_centered_text width (fst r3)
          (lit "~ THIRUVALLUVAR ~")
          (float_of_Z footer_y) font_tiny logo_red
          (width - (card_margin * 2)) ;;
  Ok (fst r4).

(** The files of the machine: the bytes stored under each path. *)
Definition file_system := string -> option (list Byte.byte).

(** [img.save(output_path, 'PNG')]: what it leaves on disk and whether it
    raised. *)
Variable save_png : image -> string -> file_system
                    -> file_system * result unit.

(** Lines 48 to 219. *)
Definition create_wallpaper_image (kural_data : record)
           (output_path : string) (width height : Z) (fs : file_system)
  : file_system * result string :=
  match compose kural_data width height with
  | Raise e => (fs, Raise e)
  | Ok img =>
      let '(fs', saved) := save_png img output_path fs in
      (fs', _ <- saved ;; Ok output_path)
  end.

End WithPillow.

End Composer.


(* ------------------------------------------------------------------ *)
(** ** The specification's vocabulary *)
(* ------------------------------------------------------------------ *)

Module Spec.
Import PyStr Py PyNum Canvas Composer.
Local Open Scope Z_scope.

(** The fixed colours of the background: top and bottom of the gradient. *)
Definition top_color : Z * Z * Z := (26, 26, 46).
Definition bottom_color : Z * Z * Z := (15, 33, 62).

(** Linear interpolation of one channel at normalized position [ratio], in
    Python's float arithmetic, truncated by [int]. *)
Definition interpolate (top bottom : Z) (ratio : float) : result Z :=
  int_of_float (float_of_Z top + float_of_Z (bottom - top) * ratio)%float.

(** The colour of row [y]: each channel interpolated between [top_color]
    and [bottom_color] at the normalized row position [y / height]. *)
Definition interpolated_row_color (y height : Z) : result color :=
  let ratio := (float_of_Z y / float_of_Z height)%float in
  let '(tr, tg, tb) := top_color in
  let '(br, bg, bb) := bottom_color in
  bind (interpolate tr br ratio) (fun r =>
  bind (interpolate tg bg ratio) (fun g =>
  bind (interpolate tb bb ratio) (fun b => Ok [r; g; b]))).

(** The same interpolation over the rationals: the value
    [top + (bottom - top) * y / height], truncated toward zero. *)
Definition interpolate_exact (top bottom y height : Z) : Z :=
  Z.quot (top * height + (bottom - top) * y) height.

Definition exact_row_color (y height : Z) : color :=
  let '(tr, tg, tb) := top_color in
  let '(br, bg, bb) := bottom_color in
  [ interpolate_exact tr br y height;
    interpolate_exact tg bg y height;
    interpolate_exact tb bb y height ].

(** Does the computed colour of row [y] agree with the exact one? *)
Definition row_agrees (height y : Z) : bool :=
  match gradient_color y height with
  | Ok c => color_eqb c (exact_row_color y height)
  | Raise _ => false
  end.

(** [p start && p (start + 1) && ... && p (start + n - 1)] *)
Definition count_up (p : Z -> bool) (start n : Z) : bool :=
  snd (Z.iter n (fun st => (fst st + 1, snd st && p (fst st))) (start, true)).

Definition rows_agree (height : Z) : bool :=
  count_up (row_agrees height) 0 height.

(** The canvas heights the exact agreement is established for: the default
    1080 and the other usual display heights. *)
Definition checked_heights : list Z :=
  [480; 600; 720; 768; 800; 900; 1024; 1050; 1080; 1200; 1440; 1600; 2160].

(** The ordered fallback chain of the text extraction policy: split the
    primary-script field at its line separator when it has one, else take
    the two fallback-script fields; if the first line is still empty, take
    both lines from the fallback-script fields. *)
Definition fallback_chain (kural_data : record) : str * str :=
  let primary := dict_get kural_data "kural_tamil1" [] in
  let fallback := (dict_get kural_data "kural_bamini1" [],
                   dict_get kural_data "kural_bamini2" []) in
  let first_choice :=
    if contains NEWLINE primary
    then (nth 0 (split_on NEWLINE primary) [],
          nth 1 (split_on NEWLINE primary) [])
    else fallback in
  match fst first_choice with
  | [] => fallback
  | _ => first_choice
  end.

(** A line fits when its measured width does not exceed the maximum. *)
Definition fits (textbbox : font -> str -> result (Z * Z * Z * Z))
           (f : font) (max_width : Z) (line : str) : Prop :=
  exists w, text_width textbbox f line = Ok w /\ w <= max_width.

(** What the loop keeps true of the closed lines and of the line being
    built, [all] being the words of the whole text: a closed line fits, or is
    one word of the text, or is the empty line closed in front of a first
    word that does not fit. *)
Definition line_ok (textbbox : font -> str -> result (Z * Z * Z * Z))
           (f : font) (max_width : Z) (all : list str) (l : str) : Prop :=
  fits textbbox f max_width l \/ In l all
  \/ (l = [] /\ exists w, In w all /\ ~ fits textbbox f max_width w).

Definition current_ok (textbbox : font -> str -> result (Z * Z * Z * Z))
           (f : font) (max_width : Z) (all : list str) (cur : list str)
  : Prop :=
  cur = [] \/ fits textbbox f max_width (join [SPACE] cur)
  \/ exists w, cur = [w] /\ In w all.

(** The vertical distance between two lines of a block. *)
Definition line_spacing (f : font) : float :=
  (float_of_Z (font_size f) * 1.3)%float.

(** The output file is either fully written or not created or updated. *)
Definition all_or_nothing (before after : option (list Byte.byte))
           (complete : list Byte.byte) : Prop :=
  after = before \/ after = Some complete.

End Spec.

(* ------------------------------------------------------------------ *)
(** ** Fixtures: a concrete machine to run the functions on *)
(* ------------------------------------------------------------------ *)

Module Fixtures.
Import PyStr Py PyNum Canvas Composer.
Local Open Scope Z_scope.

(** A fixed-pitch typeface: every character is half the font size wide. *)
Definition fixed_pitch (f : font) (text : str) : result (Z * Z * Z * Z) :=
  Ok (0, 0, Z.of_nat (List.length text) * font_size f / 2, font_size f).

(** A machine on which only Latha is installed. *)
Definition latha_only (path : string) (size : Z) : result font :=
  if String.eqb path "C:\Windows\Fonts\Latha.ttf"
  then Ok (mkFont (Some path) size)
  else Raise OSError.

Definition builtin_font : font := mkFont None 10.

Definition ascii_upper (s : str) : str :=
  map (fun c => if ((97 <=? c) && (c <=? 122))%N then (c - 32)%N else c) s.

(** The first couplet, as the data file stores it. *)
Definition kural_1 : record :=
  [ ("kural_no", lit "1");
    ("adhikarm_english", lit "The Praise of God");
    ("kural_bamini1", lit "mfu Kjy vOj;njy;yhk; Mjp");
    ("kural_bamini2", lit "gftd; Kjw;Nw cyF");
    ("kuralvilakam_english",
      lit "As the letter A is the first of all letters, so the eternal God is first in the world") ]%string.

Definition feature_1 : json :=
  JObj [ ("type", JStr (lit "Feature"));
         ("properties", JObj [ ("kural_no", JInt 1) ]) ]%string.

Definition first_index (n : nat) : nat := 0%nat.

(** A one-file disk holding a document with one feature, or with none of
    the expected structure. *)
Definition read_fixture (path : string) : result str :=
  if String.eqb path "thirukural.json" then Ok (lit "{features}")
  else if String.eqb path "other.json" then Ok (lit "{}")
  else Raise OSError.

Definition decode_fixture (text : str) : result json :=
  match text with
  | [_; _] => Ok (JObj [])
  | _ :: _ => Ok (JObj [ ("features"%string, JArr [feature_1]) ])
  | [] => Raise JSONDecodeError
  end.

(** A stand-in encoder: the PNG signature, then one byte per operation. *)
Definition toy_png (img : image) : list Byte.byte :=
  [Byte.x89; Byte.x50; Byte.x4e; Byte.x47; Byte.x0d; Byte.x0a; Byte.x1a;
   Byte.x0a] ++ map (fun _ => Byte.x00) (img_ops img).

(** A save that opens the file for writing, gets four bytes out and then
    fails, as on a full disk. *)
Definition save_disk_full (img : image) (path : string) (fs : file_system)
  : file_system * result unit :=
  (fun p => if String.eqb p path then Some (firstn 4 (toy_png img)) else fs p,
   Raise OSError).

(** A save that writes the whole encoding. *)
Definition save_ok (img : image) (path : string) (fs : file_system)
  : file_system * result unit :=
  (fun p => if String.eqb p path then Some (toy_png img) else fs p, Ok tt).

(** A disk that already holds yesterday's run under the output path. *)
Definition disk_with_old_wallpaper : file_system :=
  fun p => if String.eqb p "wallpaper.png" then Some [Byte.x89; Byte.x50]
           else None.

End Fixtures.

(* ------------------------------------------------------------------ *)
(** ** The caller: [generate_wallpaper] *)
(* ------------------------------------------------------------------ *)

From Stdlib Require Import DecimalString.

Module Generator.
Import PyStr Py DataProvider Composer.
Local Open Scope py_scope.

(** How an integer key prints. *)
Definition decimal (n : nat) : string :=
  NilEmpty.string_of_uint (Nat.to_uint n).

Section Generate.

Variable read_text : string -> result str.
Variable json_decode : str -> result json.
Variable randbelow : nat -> nat.

(** [random.choice(seq)] on whatever the data file holds under
    ['features']: a list is indexed; a string gives one of its characters;
    a dict, whose keys are strings and are listed once each, has no integer
    key to index; the other values have no length. *)
Definition random_choice_value (seq : json) : result json :=
  match seq with
  | JArr items => random_choice randbelow items
  | JStr s => c <- random_choice randbelow s ;; Ok (JStr [c])
  | JObj [] => Raise IndexError
  | JObj fields => Raise (KeyError (decimal (randbelow (List.length fields))))
  | JNull | JBool _ | JInt _ | JFloat _ => Raise TypeError
  end.

(** [get_random_kural(kurals)] on that value. *)
Definition get_random_kural_value (kurals : json) : result json :=
  random_kural <- random_choice_value kurals ;;
  getitem random_kural "properties".

(** [date.today().isoformat()] *)
Variable today : string.

(** [create_wallpaper_image(kural, output_path)], at its default size, on
    the value picked from the data file. *)
Variable create_wallpaper_image_default :
  json -> string -> file_system -> file_system * result string.

(** Lines 222 to 233. [None] is the default argument. *)
Definition generate_wallpaper (output_path : option string)
           (fs : file_system) : file_system * result string :=
  match load_thirukural_data read_text json_decode "thirukural.json" with
  | Raise e => (fs, Raise e)
  | Ok kurals =>
      match get_random_kural_value kurals with
      | Raise e => (fs, Raise e)
      | Ok kural =>
          let output_path :=
            match output_path with
            | None => ("wallpaper_" ++ today ++ ".png")%string
            | Some p => p
            end in
          create_wallpaper_image_default kural output_path fs
      end
  end.

End Generate.

End Generator.

(* ------------------------------------------------------------------ *)
(** ** What is observed of the composer *)
(* ------------------------------------------------------------------ *)

Module Observations.
Import PyStr Py PyNum Canvas Composer Spec Fixtures.
Local Open Scope Z_scope.

(** One pass of the font loop: the candidate at the four sizes. *)
Definition candidate_fonts (truetype : string -> Z -> result font)
           (font_path : string) : result (font * font * font * font) :=
  bind (truetype font_path 42) (fun font_title =>
  bind (truetype font_path 28) (fun font_subtitle =>
  bind (truetype font_path 24) (fun font_label =>
  bind (truetype font_path 18) (fun font_tiny =>
  Ok (font_title, font_subtitle, font_label, font_tiny))))).

(** Putting [word] after the words of [line] measures wider than allowed. *)
Definition overflows (textbbox : font -> str -> result (Z * Z * Z * Z))
           (f : font) (max_width : Z) (line word : str) : Prop :=
  exists w,
    text_width textbbox f (join [SPACE] (split line ++ [word])) = Ok w
    /\ max_width < w.

(** Every line break is forced: the first word of a line did not fit at the
    end of the line before. *)
Definition breaks_forced (textbbox : font -> str -> result (Z * Z * Z * Z))
           (f : font) (max_width : Z) (lines : list str) : Prop :=
  forall pre line next post word rest,
    lines = pre ++ line :: next :: post ->
    split next = word :: rest ->
    overflows textbbox f max_width line word.

(** A line holds its words and single spaces between them, nothing else. *)
Definition single_spaced (line : str) : Prop :=
  join [SPACE] (split line) = line.

(** What the wrap loop keeps true of its closed lines and of the line it
    is building. *)
Definition wrap_state_ok (textbbox : font -> str -> result (Z * Z * Z * Z))
           (f : font) (max_width : Z) (lines cur : list str) : Prop :=
  Forall single_spaced lines
  /\ Forall (fun l => l <> []) (tl lines)
  /\ Forall is_word cur
  /\ (cur = [] -> lines = [])
  /\ breaks_forced textbbox f max_width lines
  /\ (forall pre last word rest,
         lines = pre ++ [last] -> cur = word :: rest ->
         overflows textbbox f max_width last word).

(** The text operations of a canvas: line, colour and font, in order. *)
Definition drawn_text (ops : list draw_op) : list (str * color * font) :=
  flat_map (fun op =>
              match op with
              | Text _ _ line fill f => [(line, fill, f)]
              | _ => []
              end) ops.

(** The lines of a block as [drawn_text] shows them. *)
Definition block (fill : color) (f : font) (lines : list str)
  : list (str * color * font) :=
  map (fun line => (line, fill, f)) lines.

(** A text operation whose line is centred in [width]: the margins left and
    right of it differ by one pixel at most. *)
Definition centred_text (textbbox : font -> str -> result (Z * Z * Z * Z))
           (width : Z) (fill : color) (f : font) (op : draw_op) : Prop :=
  exists x y line line_width,
    op = Text x y line fill f
    /\ text_width textbbox f line = Ok line_width
    /\ 0 <= (width - line_width - x) - x <= 1.

(** The keys of the record that the composer looks up. *)
Definition keys_read : list string :=
  [ "kural_tamil1"; "kural_bamini1"; "kural_bamini2";
    "kuralvilakam_english"; "kural_no"; "adhikarm_english" ]%string.

(** A record of text fields as the JSON object it is decoded from. *)
Definition text_record (r : record) : json :=
  JObj (map (fun kv => (fst kv, JStr (snd kv))) r).

(** The first couplet with fields the composer has no use for. *)
Definition kural_1_more : record :=
  (("kural_tamil2", [2949; 2965]%N) :: ("kural_id", lit "k1")
   :: rev kural_1)%string.

(** A data file with two couplets, both with text fields only. *)
Definition kural_2 : record :=
  [ ("kural_no", lit "2");
    ("adhikarm_english", lit "The Praise of God");
    ("kural_tamil1", [2949; 2965; 10; 2950; 2965]%N);
    ("kuralvilakam_english",
      lit "What profit have those derived from learning") ]%string.

Definition read_two (path : string) : result str :=
  if String.eqb path "thirukural.json" then Ok (lit "{features}")
  else Raise OSError.

Definition decode_two (text : str) : result json :=
  Ok (JObj [ ("features"%string,
              JArr [ JObj [("properties"%string, text_record kural_1)];
                     JObj [("properties"%string, text_record kural_2)] ]) ]).

Definition last_index (n : nat) : nat := Nat.pred n.

(** [f"{n}"] for an integer [n]: its decimal digits, with a minus sign when
    negative. *)
Definition format_int (n : Z) : str :=
  lit (NilEmpty.string_of_int (Z.to_int n)).

Definition is_read (key : string) : bool :=
  existsb (String.eqb key) keys_read.

(** How the composer reads the fields of a properties object: a text field
    as it is; an integer ['kural_no'], which is only ever formatted into
    the header, as its digits; a field of another kind is left out when the
    composer never looks it up, and otherwise puts the object outside what
    is embedded ([None]). *)
Fixpoint record_of_fields (fields : dict json) : option record :=
  match fields with
  | [] => Some []
  | (key, value) :: rest =>
      match record_of_fields rest with
      | None => None
      | Some r =>
          match value with
          | JStr s => Some ((key, s) :: r)
          | JInt n =>
              if String.eqb key "kural_no" then Some ((key, format_int n) :: r)
              else if is_read key then None else Some r
          | _ => if is_read key then None else Some r
          end
      end
  end.

Definition record_of_properties (kural : json) : option record :=
  match kural with
  | JObj fields => record_of_fields fields
  | _ => None
  end.

(** Line 233: [create_wallpaper_image(kural, output_path)], [width] and
    [height] taking their defaults of lines 51 and 52. A properties object
    outside what is embedded is left to [create_other]. *)
Definition create_wallpaper_image_call
           (textbbox : font -> str -> result (Z * Z * Z * Z))
           (truetype : string -> Z -> result font) (load_default : font)
           (upper : str -> str)
           (save_png : image -> string -> file_system
                       -> file_system * result unit)
           (create_other : json -> string -> file_system
                           -> file_system * result string)
           (kural : json) (output_path : string) (fs : file_system)
  : file_system * result string :=
  match record_of_properties kural with
  | Some r =>
      create_wallpaper_image textbbox truetype load_default upper save_png
        r output_path 1920 1080 fs
  | None => create_other kural output_path fs
  end.

(** A data file as the program finds it: the couplet number is an integer
    and the entries carry fields the composer has no use for. *)
Definition properties_2 : json :=
  JObj [ ("kural_no", JInt 2);
         ("adhikarm_english", JStr (lit "The Praise of God"));
         ("adhikarm_no", JInt 1);
         ("kural_tamil1", JStr [2949; 2965; 10; 2950; 2965]%N);
         ("kuralvilakam_english",
           JStr (lit "What profit have those derived from learning")) ]%string.

Definition decode_mixed (text : str) : result json :=
  Ok (JObj [ ("type"%string, JStr (lit "FeatureCollection"));
             ("features"%string,
              JArr [ JObj [("properties"%string, text_record kural_1)];
                     JObj [ ("type"%string, JStr (lit "Feature"));
                            ("properties"%string, properties_2) ] ]) ]).

End Observations.

(* ------------------------------------------------------------------ *)
(** ** Facts about [split] and [join] *)
(* ------------------------------------------------------------------ *)

Module PyStrFacts.
Import PyStr.

Definition no_space (s : str) : Prop := forall c, In c s -> isspace c = false.

Lemma no_space_snoc (cur : str) (c : char) :
  no_space cur -> isspace c = false -> no_space (cur ++ [c]).
Proof.
  intros Hcur Hc d Hd. apply in_app_or in Hd as [Hd | [<- | []]]; auto.
Qed.

Lemma snoc_not_nil {A} (l : list A) (a : A) : l ++ [a] <> [].
Proof. destruct l; discriminate. Qed.

(** A separator can be swapped for any other whitespace character. *)
Lemma split_from_separator (c1 c2 : char) (a b : str) :
  isspace c1 = true -> isspace c2 = true ->
  forall cur, split_from cur (a ++ c1 :: b) = split_from cur (a ++ c2 :: b).
Proof.
  intros H1 H2. induction a as [| x a IH]; intros cur; simpl.
  - now rewrite H1, H2.
  - destruct (isspace x).
    + destruct cur; now rewrite IH.
    + apply IH.
Qed.

(** Splitting distributes over a whitespace separator. *)
Lemma split_from_app (c : char) (a b : str) :
  isspace c = true ->
  forall cur, split_from cur (a ++ c :: b) = split_from cur a ++ split b.
Proof.
  intros Hc. unfold split. induction a as [| x a IH]; intros cur; simpl.
  - rewrite Hc. now destruct cur.
  - destruct (isspace x).
    + destruct cur; now rewrite IH.
    + apply IH.
Qed.

Lemma split_app (c : char) (a b : str) :
  isspace c = true -> split (a ++ c :: b) = split a ++ split b.
Proof. intros Hc. now apply split_from_app. Qed.

(** A run without whitespace is read as one item. *)
Lemma split_from_no_space (w : str) :
  no_space w ->
  forall cur, split_from cur w
              = match cur ++ w with [] => [] | _ => [cur ++ w] end.
Proof.
  induction w as [| c w IH]; intros Hw cur; simpl.
  - rewrite app_nil_r. reflexivity.
  - rewrite (Hw c (or_introl eq_refl)).
    rewrite IH by (intros d Hd; apply Hw; now right).
    now rewrite <- app_assoc.
Qed.

Lemma split_word (w : str) : is_word w -> split w = [w].
Proof.
  intros [Hne Hw]. unfold split. rewrite split_from_no_space by exact Hw.
  simpl. destruct w; [contradiction | reflexivity].
Qed.

(** Everything [split] returns is a word. *)
Lemma split_from_words (s : str) :
  forall cur, no_space cur -> Forall is_word (split_from cur s).
Proof.
  induction s as [| c s IH]; intros cur Hcur; simpl.
  - destruct cur as [| d cur']; constructor; [| constructor].
    split; [discriminate | exact Hcur].
  - destruct (isspace c) eqn:Hc.
    + assert (Hnil : no_space []) by (intros ? []).
      destruct cur as [| d cur']; [now apply IH |].
      constructor; [| now apply IH].
      split; [discriminate | exact Hcur].
    + apply IH. now apply no_space_snoc.
Qed.

Lemma split_words (s : str) : Forall is_word (split s).
Proof. apply split_from_words. intros ? []. Qed.

(** Joining with single spaces and splitting again concatenates the items
    of the parts. *)
Lemma split_join (parts : list str) :
  split (join [SPACE] parts) = concat (map split parts).
Proof.
  induction parts as [| p rest IH]; [reflexivity |].
  destruct rest as [| q rest].
  - simpl. now rewrite app_nil_r.
  - change (join [SPACE] (p :: q :: rest))
      with (p ++ SPACE :: join [SPACE] (q :: rest)).
    rewrite split_app by reflexivity. rewrite IH. reflexivity.
Qed.

Lemma concat_split_words (ws : list str) :
  Forall is_word ws -> concat (map split ws) = ws.
Proof.
  induction 1 as [| w ws Hw _ IH]; [reflexivity |].
  simpl. rewrite (split_word w Hw), IH. reflexivity.
Qed.

(** Words joined with single spaces split back into the same words. *)
Lemma split_join_words (ws : list str) :
  Forall is_word ws -> split (join [SPACE] ws) = ws.
Proof. intros H. rewrite split_join. now apply concat_split_words. Qed.

(** An item of a split is no longer than the text it was cut from. *)
Lemma split_from_length (s : str) :
  forall cur w,
    In w (split_from cur s) ->
    (List.length w <= List.length cur + List.length s)%nat.
Proof.
  induction s as [| c s IH]; intros cur w Hin; simpl in Hin.
  - destruct cur; [destruct Hin |].
    destruct Hin as [<- | []]. lia.
  - destruct (isspace c).
    + destruct cur as [| d cur'].
      * apply IH in Hin. simpl in *. lia.
      * destruct Hin as [<- | Hin]; [simpl; lia |].
        apply IH in Hin. simpl in *. lia.
    + apply IH in Hin. rewrite length_app in Hin. simpl in *. lia.
Qed.

Lemma split_on_from_nonempty (sep : char) (s : str) :
  forall cur, (1 <= List.length (split_on_from sep cur s))%nat.
Proof.
  induction s as [| c s IH]; intros cur; simpl; [lia |].
  destruct (N.eqb c sep); [simpl; lia | apply IH].
Qed.

(** A text that holds the separator splits into at least two pieces. *)
Lemma split_on_from_contains (sep : char) (s : str) :
  contains sep s = true ->
  forall cur, (2 <= List.length (split_on_from sep cur s))%nat.
Proof.
  unfold contains. induction s as [| c s IH]; [discriminate |].
  simpl. intros H cur. destruct (N.eqb c sep) eqn:E.
  - simpl. pose proof (split_on_from_nonempty sep s []). lia.
  - simpl in H. now apply IH.
Qed.

End PyStrFacts.

(* ------------------------------------------------------------------ *)
(** ** The data provider: selection and loading *)
(* ------------------------------------------------------------------ *)

Module DataProviderFacts.
Import PyStr Py DataProvider Fixtures.

(** With a draw inside the range, [random.choice] returns a member. *)
Lemma random_choice_member {A} (randbelow : nat -> nat) (seq : list A) :
  seq <> [] ->
  randbelow (List.length seq) < List.length seq ->
  exists x, random_choice randbelow seq = Ok x /\ In x seq.
Proof.
  intros Hne Hlt. unfold random_choice.
  destruct seq as [| a l] eqn:E; [contradiction |]. rewrite <- E in *.
  destruct (nth_error seq (randbelow (List.length seq))) as [x |] eqn:Hn.
  - exists x. split; [reflexivity |]. eapply nth_error_In; eauto.
  - apply nth_error_None in Hn. lia.
Qed.

(** C1, as the code has it: for every non-empty collection and every draw
    of the generator inside the range, [get_random_kural] picks a member of
    the collection and returns what indexing that member with
    ['properties'] gives: the nested properties object of a member (or the
    error of that lookup), not the member itself. *)
Theorem get_random_kural_properties_of_member
  (randbelow : nat -> nat) (kurals : list json) :
  kurals <> [] ->
  (forall n, 0 < n -> randbelow n < n) ->
  exists entry,
    In entry kurals /\
    get_random_kural randbelow kurals = getitem entry "properties".
Proof.
  intros Hne Hrand.
  destruct (random_choice_member randbelow kurals Hne) as (x & Hx & Hin).
  - apply Hrand. destruct kurals; [contradiction | simpl; lia].
  - exists x. split; [exact Hin |].
    unfold get_random_kural. rewrite Hx. reflexivity.
Qed.

Lemma get_random_kural_properties_of_member_witness :
  exists entry,
    In entry [feature_1; JNull] /\
    get_random_kural first_index [feature_1; JNull]
    = getitem entry "properties".
Proof.
  apply (get_random_kural_properties_of_member first_index [feature_1; JNull]).
  - discriminate.
  - intros n Hn. unfold first_index. lia.
Defined.

(** C1 as stated fails: on a one-entry collection the value returned is the
    entry's properties object, which is not an element of the collection. *)
Lemma get_random_kural_not_a_member :
  exists v,
    get_random_kural first_index [feature_1] = Ok v /\ ~ In v [feature_1].
Proof.
  eexists. split; [reflexivity |].
  intros [H | []]. discriminate H.
Qed.

(** C2: on a collection with no element [get_random_kural] fails, whatever
    the generator does; the error is the [IndexError] that [random.choice]
    raises for an empty sequence, which is how the program signals an empty
    collection: with a generator that draws inside the range, the call
    raises [IndexError] for the empty collection and for no other. *)
Theorem get_random_kural_empty (randbelow : nat -> nat) :
  get_random_kural randbelow [] = Raise IndexError
  /\ ((forall n, 0 < n -> randbelow n < n) ->
      forall kurals,
        get_random_kural randbelow kurals = Raise IndexError -> kurals = []).
Proof.
  split; [reflexivity |].
  intros Hrand kurals H.
  destruct kurals as [| k rest]; [reflexivity | exfalso].
  destruct (random_choice_member randbelow (k :: rest)) as (x & Hx & _);
    [discriminate | apply Hrand; simpl; lia |].
  unfold get_random_kural in H. rewrite Hx in H. simpl in H.
  destruct x; simpl in H; try discriminate.
  destruct (dict_lookup "properties" fields); discriminate.
Qed.

Lemma get_random_kural_empty_witness :
  get_random_kural first_index [] = Raise IndexError
  /\ get_random_kural first_index [JNull] = Raise TypeError.
Proof.
  split.
  - apply (proj1 (get_random_kural_empty first_index)).
  - reflexivity.
Defined.

(** C3: when the file reads and decodes, a document that is an object whose
    ['features'] key holds an array of entries loads as exactly that
    sequence, so its length is the entry count; a document without a
    top-level ['features'] key fails: with the [KeyError] of the missing key
    when it is an object, with a [TypeError] when it is no object at all.
    These are how the program signals a malformed document. *)
Theorem load_thirukural_data_features
  (read_text : string -> result str) (json_decode : str -> result json)
  (json_path : string) (text : str) (data : json) :
  read_text json_path = Ok text ->
  json_decode text = Ok data ->
  (forall fields entries,
      data = JObj fields ->
      dict_lookup "features" fields = Some (JArr entries) ->
      exists kurals,
        load_thirukural_data read_text json_decode json_path
        = Ok (JArr kurals)
        /\ kurals = entries
        /\ List.length kurals = List.length entries)
  /\ ((forall fields,
          data = JObj fields -> dict_lookup "features" fields = None) ->
      load_thirukural_data read_text json_decode json_path
      = Raise (KeyError "features")
      \/ load_thirukural_data read_text json_decode json_path
         = Raise TypeError).
Proof.
  intros Hread Hdec. unfold load_thirukural_data.
  rewrite Hread. simpl. rewrite Hdec. simpl. split.
  - intros fields entries -> Hf. exists entries. simpl. rewrite Hf. auto.
  - intros Hmissing. destruct data; simpl; auto.
    rewrite (Hmissing fields eq_refl). auto.
Qed.

Lemma load_thirukural_data_features_witness :
  (exists kurals,
      load_thirukural_data read_fixture decode_fixture "thirukural.json"
      = Ok (JArr kurals)
      /\ kurals = [feature_1]
      /\ List.length kurals = List.length [feature_1])
  /\ (load_thirukural_data read_fixture decode_fixture "other.json"
      = Raise (KeyError "features")
      \/ load_thirukural_data read_fixture decode_fixture "other.json"
         = Raise TypeError).
Proof.
  split.
  - apply (proj1 (load_thirukural_data_features read_fixture decode_fixture
                    "thirukural.json" (lit "{features}")
                    (JObj [("features"%string, JArr [feature_1])])
                    eq_refl eq_refl)
             [("features"%string, JArr [feature_1])] [feature_1]);
      reflexivity.
  - apply (proj2 (load_thirukural_data_features read_fixture decode_fixture
                    "other.json" (lit "{}") (JObj []) eq_refl eq_refl)).
    intros fields E. injection E as <-. reflexivity.
Defined.

(** The two fixtures run: one feature loaded, and the missing key refused. *)
Example load_fixture_runs :
  load_thirukural_data read_fixture decode_fixture "thirukural.json"
  = Ok (JArr [feature_1])
  /\ load_thirukural_data read_fixture decode_fixture "other.json"
     = Raise (KeyError "features")
  /\ load_thirukural_data read_fixture decode_fixture "missing.json"
     = Raise OSError.
Proof. repeat split. Qed.

(** A document that is not an object at all fails too. *)
Lemma load_thirukural_data_not_an_object
  (read_text : string -> result str) (json_decode : str -> result json)
  (json_path : string) (text : str) (items : list json) :
  read_text json_path = Ok text ->
  json_decode text = Ok (JArr items) ->
  load_thirukural_data read_text json_decode json_path = Raise TypeError.
Proof.
  intros Hread Hdec. unfold load_thirukural_data.
  rewrite Hread. simpl. rewrite Hdec. reflexivity.
Qed.

End DataProviderFacts.

(* ------------------------------------------------------------------ *)
(** ** The word-wrap loop *)
(* ------------------------------------------------------------------ *)

Module WrapFacts.
Import PyStr Py PyNum Canvas Composer Spec Fixtures PyStrFacts.
Local Open Scope Z_scope.

(** Inversion of a successful sequencing step. *)
Lemma bind_ok {A B} (c : result A) (k : A -> result B) (b : B) :
  bind c k = Ok b -> exists a, c = Ok a /\ k a = Ok b.
Proof. destruct c as [a | e]; simpl; [eauto | discriminate]. Qed.

Ltac bind_inv H :=
  let a := fresh "a" in
  let Ha := fresh "Ha" in
  apply bind_ok in H as (a & Ha & H).

Section Wrap.

Variable textbbox : font -> str -> result (Z * Z * Z * Z).
Variable f : font.
Variable max_width : Z.

(** The loop returns whenever every measurement does. *)
Lemma wrap_loop_total (words : list str) :
  (forall s, exists b, textbbox f s = Ok b) ->
  forall lines cur,
    exists st, wrap_loop textbbox f max_width words lines cur = Ok st.
Proof.
  intros Hm. induction words as [| word rest IH]; intros lines cur; simpl.
  - eauto.
  - unfold text_width.
    destruct (Hm (join [SPACE] (cur ++ [word]))) as ([[[x0 y0] x1] y1] & ->).
    simpl. destruct (x1 - x0 <=? max_width); apply IH.
Qed.

Lemma wrap_lines_total (text : str) :
  (forall s, exists b, textbbox f s = Ok b) ->
  exists lines, wrap_lines textbbox f max_width text = Ok lines.
Proof.
  intros Hm. unfold Composer.wrap_lines.
  destruct (wrap_loop_total (split text) Hm [] []) as ([lines cur] & ->).
  simpl. destruct cur; eauto.
Qed.

(** The words seen so far are the words of the closed lines followed by the
    words of the line being built. *)
Lemma wrap_loop_words (words : list str) :
  forall lines cur lines' cur',
    Forall is_word words -> Forall is_word cur ->
    wrap_loop textbbox f max_width words lines cur = Ok (lines', cur') ->
    concat (map split lines') ++ cur'
    = concat (map split lines) ++ cur ++ words
    /\ Forall is_word cur'.
Proof.
  induction words as [| word rest IH];
    intros lines cur lines' cur' Hws Hcur H; simpl in H.
  - injection H as <- <-. now rewrite app_nil_r.
  - inversion Hws as [| ? ? Hword Hrest]; subst.
    bind_inv H. destruct (a <=? max_width).
    + apply IH in H as [H Hc]; auto.
      * rewrite H, <- app_assoc. auto.
      * apply Forall_app. auto.
    + apply IH in H as [H Hc]; auto.
      rewrite H, map_app, concat_app. cbn [map concat].
      rewrite split_join_words by exact Hcur.
      rewrite app_nil_r, <- app_assoc. auto.
Qed.

Lemma wrap_lines_words (text : str) (lines : list str) :
  wrap_lines textbbox f max_width text = Ok lines ->
  concat (map split lines) = split text.
Proof.
  unfold Composer.wrap_lines. intros H. bind_inv H. destruct a as [ls cur].
  apply wrap_loop_words in Ha as [Ha Hcur];
    [| apply split_words | constructor].
  simpl in Ha. destruct cur as [| w cur].
  - injection H as <-. now rewrite app_nil_r in Ha.
  - injection H as <-. rewrite map_app, concat_app. cbn [map concat].
    change (match cur with
            | [] => w
            | _ :: _ => w ++ SPACE :: join [SPACE] cur
            end) with (join [SPACE] (w :: cur)).
    rewrite split_join_words by exact Hcur. now rewrite app_nil_r.
Qed.

Lemma wrap_loop_fit (all : list str) (words : list str) :
  forall lines cur lines' cur',
    incl words all ->
    Forall (line_ok textbbox f max_width all) lines ->
    current_ok textbbox f max_width all cur ->
    wrap_loop textbbox f max_width words lines cur = Ok (lines', cur') ->
    Forall (line_ok textbbox f max_width all) lines'
    /\ current_ok textbbox f max_width all cur'.
Proof.
  induction words as [| word rest IH];
    intros lines cur lines' cur' Hall Hlines Hcur H; simpl in H.
  - injection H as <- <-. auto.
  - assert (Hword : In word all) by (apply Hall; now left).
    assert (Hrest : incl rest all) by (intros x Hx; apply Hall; now right).
    bind_inv H. destruct (a <=? max_width) eqn:Hle.
    + apply IH in H; auto.
      right. left. exists a. split; [exact Ha | lia].
    + apply IH in H; auto.
      * apply Forall_app. split; [exact Hlines |].
        constructor; [| constructor].
        destruct Hcur as [-> | [Hfit | (w & -> & Hw)]].
        -- right. right. split; [reflexivity |].
           exists word. split; [exact Hword |].
           intros (w' & Hw' & Hle'). simpl in Ha.
           rewrite Ha in Hw'. injection Hw' as <-. lia.
        -- now left.
        -- right. now left.
      * right. right. eauto.
Qed.

Lemma wrap_lines_line_ok (text : str) (lines : list str) :
  wrap_lines textbbox f max_width text = Ok lines ->
  Forall (line_ok textbbox f max_width (split text)) lines.
Proof.
  unfold Composer.wrap_lines. intros H. bind_inv H. destruct a as [ls cur].
  apply (wrap_loop_fit (split text)) in Ha as [Hls Hcur];
    [| apply incl_refl | constructor | now left].
  destruct cur as [| w cur]; injection H as <-; [exact Hls |].
  apply Forall_app. split; [exact Hls |]. constructor; [| constructor].
  destruct Hcur as [Hnil | [Hfit | (w' & E & Hw')]].
  - discriminate.
  - now left.
  - injection E as -> ->. right. now left.
Qed.

End Wrap.

(** C4: when the wrap of a text returns its lines, (1) if the maximum width
    is at least the measured width of every single word of the text, every
    line has a measured width not exceeding the maximum; (2) without that
    assumption, a non-empty line that does not fit is one whole word of the
    text; and (3) for a measure under which the words of a line that fits
    fit too, a word that does not fit is alone on its line, unbroken. *)
Theorem wrap_lines_fit
  (textbbox : font -> str -> result (Z * Z * Z * Z)) (f : font)
  (max_width : Z) (text : str) (lines : list str) :
  wrap_lines textbbox f max_width text = Ok lines ->
  ((forall word, In word (split text) -> fits textbbox f max_width word) ->
   forall line, In line lines -> fits textbbox f max_width line)
  /\ (forall line, In line lines -> line <> [] ->
      fits textbbox f max_width line \/ In line (split text))
  /\ ((forall line word, In word (split line) ->
                         fits textbbox f max_width line ->
                         fits textbbox f max_width word) ->
      forall line word,
        In line lines -> In word (split line) ->
        ~ fits textbbox f max_width word -> line = word).
Proof.
  intros H. apply wrap_lines_line_ok in H.
  rewrite Forall_forall in H.
  assert (H2 : forall line, In line lines -> line <> [] ->
                 fits textbbox f max_width line \/ In line (split text)).
  { intros line Hin Hne.
    destruct (H line Hin) as [Hfit | [Hw | (E & _)]]; auto. contradiction. }
  split; [| split; [exact H2 |]].
  - intros Hwords line Hin.
    destruct (H line Hin) as [Hfit | [Hw | (_ & w & Hw & Hno)]]; auto.
    exfalso. auto.
  - intros Hmono line word Hin Hword Hno.
    assert (Hne : line <> []) by (intros ->; destruct Hword).
    destruct (H2 line Hin Hne) as [Hfit | Hw].
    + exfalso. eauto.
    + pose proof (split_words text) as Hws. rewrite Forall_forall in Hws.
      rewrite (split_word line (Hws line Hw)) in Hword.
      now destruct Hword as [-> | []].
Qed.

(** Under the fixed-pitch measure a word is no wider than its line. *)
Lemma fixed_pitch_monotone (max_width : Z) (line word : str) :
  In word (split line) ->
  fits fixed_pitch builtin_font max_width line ->
  fits fixed_pitch builtin_font max_width word.
Proof.
  intros Hin (w & Hw & Hle). apply split_from_length in Hin.
  simpl in Hin. unfold fits, text_width, fixed_pitch in *. simpl in *.
  injection Hw as <-. eexists. split; [reflexivity |].
  assert (Z.of_nat (List.length word) * 10 / 2
          <= Z.of_nat (List.length line) * 10 / 2)
    by (apply Z.div_le_mono; lia).
  lia.
Qed.

Lemma wrap_lines_fit_witness :
  wrap_lines fixed_pitch builtin_font 30 (lit "aaaa bb cc dddd e")
  = Ok [lit "aaaa"; lit "bb cc"; lit "dddd e"]
  /\ Forall (fits fixed_pitch builtin_font 30)
            [lit "aaaa"; lit "bb cc"; lit "dddd e"]
  /\ wrap_lines fixed_pitch builtin_font 30 (lit "aaaa bbbbbbbbbbbbb cc")
     = Ok [lit "aaaa"; lit "bbbbbbbbbbbbb"; lit "cc"]
  /\ Forall (fun line => In (lit "bbbbbbbbbbbbb") (split line) ->
                         line = lit "bbbbbbbbbbbbb")
            [lit "aaaa"; lit "bbbbbbbbbbbbb"; lit "cc"].
Proof.
  split; [reflexivity |]. split; [| split; [reflexivity |]].
  - apply Forall_forall.
    apply (wrap_lines_fit fixed_pitch builtin_font 30
             (lit "aaaa bb cc dddd e")
             [lit "aaaa"; lit "bb cc"; lit "dddd e"]); [reflexivity |].
    intros word Hin. vm_compute in Hin.
    repeat (destruct Hin as [<- | Hin];
            [eexists; split; [reflexivity | vm_compute; discriminate] |]).
    destruct Hin.
  - apply Forall_forall. intros line Hin Hword.
    apply (proj2 (proj2 (wrap_lines_fit fixed_pitch builtin_font 30
                           (lit "aaaa bbbbbbbbbbbbb cc")
                           [lit "aaaa"; lit "bbbbbbbbbbbbb"; lit "cc"]
                           eq_refl))
             (fixed_pitch_monotone 30) line (lit "bbbbbbbbbbbbb") Hin Hword).
    intros (w & Hw & Hle). vm_compute in Hw. injection Hw as <-.
    vm_compute in Hle. now apply Hle.
Defined.

(** A first word wider than the maximum: the loop closes an empty line in
    front of it and the word stands alone on the next one. *)
Example wrap_lines_wide_first_word :
  wrap_lines fixed_pitch builtin_font 30 (lit "aaaaaaaaaaaaa bb cc")
  = Ok [[]; lit "aaaaaaaaaaaaa"; lit "bb cc"].
Proof. reflexivity. Qed.

(** C5: when the wrap of a text returns its lines, joining the lines with
    single spaces gives back the whitespace-delimited words of the text,
    each once and in order; the words of the lines, line after line, are
    those words too. *)
Theorem wrap_lines_round_trip
  (textbbox : font -> str -> result (Z * Z * Z * Z)) (f : font)
  (max_width : Z) (text : str) (lines : list str) :
  wrap_lines textbbox f max_width text = Ok lines ->
  split (join [SPACE] lines) = split text
  /\ concat (map split lines) = split text.
Proof.
  intros H. apply wrap_lines_words in H. rewrite split_join. auto.
Qed.

Lemma wrap_lines_round_trip_witness :
  split (join [SPACE] [lit "aaaa"; lit "bb cc"; lit "dddd e"])
  = split (lit "aaaa bb cc dddd e")
  /\ concat (map split [lit "aaaa"; lit "bb cc"; lit "dddd e"])
     = split (lit "aaaa bb cc dddd e").
Proof.
  apply (wrap_lines_round_trip fixed_pitch builtin_font 30). reflexivity.
Defined.

(** A line break between two texts splits into the same words as a single
    space. *)
Lemma split_line_break (line1 line2 : str) :
  split (full_kural line1 line2) = split (line1 ++ [SPACE] ++ line2).
Proof.
  unfold full_kural, split. simpl.
  now apply split_from_separator.
Qed.

(** C10: the wrap reads its text through [split()], for which a line break
    is a separator like any other: the two lines joined with a line break
    wrap into the same lines, are drawn by the same operations and give the
    same returned height as the two lines joined with one space, failures
    included. The line break forces no line of its own. *)
Theorem line_break_wraps_like_space
  (textbbox : font -> str -> result (Z * Z * Z * Z)) (width : Z)
  (img : image) (line1 line2 : str) (y_center : float) (f : font)
  (fill : color) (max_width : Z) :
  wrap_lines textbbox f max_width (full_kural line1 line2)
  = wrap_lines textbbox f max_width (line1 ++ [SPACE] ++ line2)
  /\ draw_wrapped_centered_text textbbox width img (full_kural line1 line2)
       y_center f fill max_width
     = draw_wrapped_centered_text textbbox width img
         (line1 ++ [SPACE] ++ line2) y_center f fill max_width.
Proof.
  unfold draw_wrapped_centered_text, wrap_lines.
  rewrite split_line_break. auto.
Qed.

(** A short couplet ends up on one line, its line break gone. *)
Example couplet_on_one_line :
  wrap_lines fixed_pitch builtin_font 1420 (full_kural (lit "ab") (lit "cd"))
  = Ok [lit "ab cd"].
Proof. reflexivity. Qed.

End WrapFacts.

(* ------------------------------------------------------------------ *)
(** ** The background gradient *)
(* ------------------------------------------------------------------ *)

Module GradientFacts.
Import PyStr Py PyNum Canvas Composer Spec Fixtures.
Local Open Scope Z_scope.

Lemma color_eqb_eq (a b : color) : color_eqb a b = true -> a = b.
Proof. unfold color_eqb. destruct (list_eq_dec Z.eq_dec a b); easy. Qed.

Lemma color_eqb_refl (a : color) : color_eqb a a = true.
Proof. unfold color_eqb. destruct (list_eq_dec Z.eq_dec a a); easy. Qed.

(** A counted check that passed holds at every index it went through. *)
Lemma count_up_true (p : Z -> bool) (start n : Z) :
  0 <= n -> count_up p start n = true ->
  forall y, start <= y < start + n -> p y = true.
Proof.
  intros Hn. unfold count_up. rewrite iter_nat_of_Z by exact Hn.
  assert (Hst : forall m,
             let st := nat_rect (fun _ => (Z * bool)%type) (start, true)
                         (fun _ st => (fst st + 1, snd st && p (fst st))) m in
             fst st = start + Z.of_nat m
             /\ (snd st = true ->
                 forall y, start <= y < start + Z.of_nat m -> p y = true)).
  { induction m as [| m [IHf IHs]]; simpl.
    - split; [lia | intros _ y Hy; lia].
    - split; [rewrite IHf; lia |].
      intros H y Hy. apply andb_true_iff in H as [Hs Hp].
      destruct (Z.eq_dec y (start + Z.of_nat m)) as [-> | Hne].
      + now rewrite IHf in Hp.
      + apply IHs; [exact Hs | lia]. }
  intros H y Hy. apply (Hst (Z.abs_nat n)); [exact H |].
  rewrite Zabs2Nat.id_abs, Z.abs_eq; lia.
Qed.

(** On the checked heights the float computation of every row is exact. *)
Lemma checked_heights_agree : forallb rows_agree checked_heights = true.
Proof. vm_compute. reflexivity. Qed.

Lemma gradient_color_exact (height y : Z) :
  In height checked_heights -> 0 <= y < height ->
  gradient_color y height = Ok (exact_row_color y height).
Proof.
  intros Hh Hy.
  pose proof checked_heights_agree as H. rewrite forallb_forall in H.
  specialize (H height Hh). unfold rows_agree in H.
  apply (count_up_true _ 0 height) with (y := y) in H; [| lia | lia].
  unfold row_agrees in H.
  destruct (gradient_color y height) as [c | e]; [| discriminate].
  now apply color_eqb_eq in H as ->.
Qed.


(** The loop only adds rectangles: the text on the canvas is unchanged. *)
Lemma gradient_rows_no_text (width height : Z) (ys : list nat) :
  forall img img',
    gradient_rows width height ys img = Ok img' ->
    img_width img' = img_width img
    /\ forall c, lines_in_color c (img_ops img')
                 = lines_in_color c (img_ops img).
Proof.
  induction ys as [| y ys IH]; intros img img' H; simpl in H.
  - injection H as <-. auto.
  - apply WrapFacts.bind_ok in H as (fill & _ & H).
    apply IH in H as [Hw H]. split; [exact Hw |].
    intros c. rewrite H. unfold lines_in_color. simpl.
    rewrite flat_map_app. simpl. now rewrite app_nil_r.
Qed.




(** The bottom row stops one step short of the bottom colour: its position
    is [(height - 1) / height], not 1. *)
Example gradient_last_row :
  gradient_color 0 1080 = Ok [26; 26; 46]
  /\ gradient_color 1079 1080 = Ok [15; 32; 61].
Proof. split; reflexivity. Qed.

End GradientFacts.

(* ------------------------------------------------------------------ *)
(** ** Drawing a block of lines *)
(* ------------------------------------------------------------------ *)

Module DrawFacts.
Import PyStr Py PyNum Canvas Composer Spec Fixtures WrapFacts.
Local Open Scope Z_scope.

Lemma lines_in_color_app (c : color) (ops1 ops2 : list draw_op) :
  lines_in_color c (ops1 ++ ops2)
  = lines_in_color c ops1 ++ lines_in_color c ops2.
Proof. apply flat_map_app. Qed.

Section Draw.

Variable textbbox : font -> str -> result (Z * Z * Z * Z).
Variable width : Z.
Variable f : font.
Variable fill : color.
Variable start_y line_height : float.

(** The drawing loop adds one text operation per line, in order: line
    number [k] of the list, counted from [i], at its centred abscissa and at
    [start_y + (i + k) * line_height]. *)
Lemma draw_lines_ops (lines : list str) :
  forall i img img',
    draw_lines textbbox width f fill start_y line_height i lines img
    = Ok img' ->
    img_width img' = img_width img
    /\ exists ops,
        img_ops img' = img_ops img ++ ops
        /\ List.length ops = List.length lines
        /\ (forall k line,
               nth_error lines k = Some line ->
               exists line_width,
                 text_width textbbox f line = Ok line_width
                 /\ nth_error ops k
                    = Some (Text ((width - line_width) / 2)
                              (start_y
                               + float_of_Z (Z.of_nat (i + k)) * line_height)
                              line fill f))
        /\ (forall c, lines_in_color c ops
                      = if color_eqb fill c then lines else []).
Proof.
  induction lines as [| line rest IH]; intros i img img' H; simpl in H.
  - injection H as <-. split; [reflexivity |]. exists [].
    rewrite app_nil_r. repeat split.
    + intros [| k] line Hk; discriminate.
    + intros c. now destruct (color_eqb fill c).
  - bind_inv H. apply IH in H as (Hw & ops & Hops & Hlen & Hnth & Hcol).
    split; [exact Hw |].
    eexists (_ :: ops). repeat split.
    + rewrite Hops. simpl. now rewrite <- app_assoc.
    + simpl. now rewrite Hlen.
    + intros [| k] l Hk; simpl in Hk.
      * injection Hk as <-. exists a. rewrite Nat.add_0_r. auto.
      * destruct (Hnth k l Hk) as (lw & Hlw & Hop).
        exists lw. split; [exact Hlw |].
        simpl. now rewrite Nat.add_succ_r.
    + intros c. specialize (Hcol c). unfold lines_in_color in *.
      simpl. rewrite Hcol. now destruct (color_eqb fill c).
Qed.

End Draw.

(** A block is drawn whenever every measurement returns. *)
Lemma draw_lines_total
  (textbbox : font -> str -> result (Z * Z * Z * Z)) (width : Z) (f : font)
  (fill : color) (start_y line_height : float) (lines : list str) :
  (forall s, exists b, textbbox f s = Ok b) ->
  forall i img,
    exists img',
      draw_lines textbbox width f fill start_y line_height i lines img
      = Ok img'.
Proof.
  intros Hm. induction lines as [| line rest IH]; intros i img; simpl.
  - eauto.
  - unfold text_width.
    destruct (Hm line) as ([[[x0 y0] x1] y1] & ->). simpl. apply IH.
Qed.

Lemma draw_wrapped_centered_text_total
  (textbbox : font -> str -> result (Z * Z * Z * Z)) (width : Z)
  (img : image) (text : str) (y_center : float) (f : font) (fill : color)
  (max_width : Z) :
  (forall s, exists b, textbbox f s = Ok b) ->
  exists drawn,
    draw_wrapped_centered_text textbbox width img text y_center f fill
      max_width
    = Ok drawn.
Proof.
  intros Hm. unfold draw_wrapped_centered_text.
  destruct (wrap_lines_total textbbox f max_width text Hm) as (lines & ->).
  cbn [bind].
  destruct (draw_lines_total textbbox width f fill
              (y_center
               - float_of_Z (Z.of_nat (List.length lines))
                 * (float_of_Z (font_size f) * 1.3) / 2)%float
              (float_of_Z (font_size f) * 1.3)%float lines Hm 0%nat img)
    as (img' & ->).
  cbn [bind]. eauto.
Qed.

(** What a block adds to the canvas, colour by colour. *)
Lemma draw_wrapped_centered_text_lines
  (textbbox : font -> str -> result (Z * Z * Z * Z)) (width : Z)
  (img img' : image) (text : str) (y_center : float) (f : font)
  (fill : color) (max_width : Z) (height : float) :
  draw_wrapped_centered_text textbbox width img text y_center f fill max_width
  = Ok (img', height) ->
  exists lines,
    wrap_lines textbbox f max_width text = Ok lines
    /\ img_width img' = img_width img
    /\ forall c, lines_in_color c (img_ops img')
                 = lines_in_color c (img_ops img)
                   ++ (if color_eqb fill c then lines else []).
Proof.
  unfold draw_wrapped_centered_text. intros H.
  bind_inv H. rename a into lines. bind_inv H. injection H as <- _.
  apply draw_lines_ops in Ha0 as (Hw & ops & Hops & _ & _ & Hcol).
  exists lines. repeat split; auto.
  intros c. now rewrite Hops, lines_in_color_app, Hcol.
Qed.

(** C8: when a block is drawn, with [lines] the wrapped lines of its text:
    the function returns the number of lines times the line spacing, the
    line spacing being the font's [size] times 1.3; it adds one text
    operation per line; and line number [i] (from 0) is drawn at height
    [start + i * spacing], where [start] is the centre minus half the
    returned height, and at the abscissa that centres it in the canvas
    width. All arithmetic is Python's float arithmetic. *)
Theorem draw_wrapped_centered_text_layout
  (textbbox : font -> str -> result (Z * Z * Z * Z)) (width : Z)
  (img img' : image) (text : str) (y_center : float) (f : font)
  (fill : color) (max_width : Z) (total_height : float) :
  draw_wrapped_centered_text textbbox width img text y_center f fill max_width
  = Ok (img', total_height) ->
  exists lines ops,
    wrap_lines textbbox f max_width text = Ok lines
    /\ total_height
       = (float_of_Z (Z.of_nat (List.length lines)) * line_spacing f)%float
    /\ img_ops img' = img_ops img ++ ops
    /\ List.length ops = List.length lines
    /\ forall i line,
         nth_error lines i = Some line ->
         exists line_width,
           text_width textbbox f line = Ok line_width
           /\ nth_error ops i
              = Some (Text ((width - line_width) / 2)
                        ((y_center - total_height / 2)
                         + float_of_Z (Z.of_nat i) * line_spacing f)
                        line fill f).
Proof.
  unfold draw_wrapped_centered_text. intros H.
  bind_inv H. rename a into lines. bind_inv H. injection H as <- <-.
  apply draw_lines_ops in Ha0 as (_ & ops & Hops & Hlen & Hnth & _).
  exists lines, ops. repeat split; auto.
Qed.

Lemma draw_wrapped_centered_text_layout_witness :
  exists lines ops,
    wrap_lines fixed_pitch (mkFont None 42) 130 (lit "aaaa bb cc dddd e")
    = Ok lines
    /\ 163.8%float
       = (float_of_Z (Z.of_nat (List.length lines))
          * line_spacing (mkFont None 42))%float
    /\ img_ops (mkImage 1920 1080
                  [ Text 918 418.1 (lit "aaaa") pure_white (mkFont None 42);
                    Text 907 472.70000000000005 (lit "bb cc") pure_white
                         (mkFont None 42);
                    Text 897 527.3000000000001 (lit "dddd e") pure_white
                         (mkFont None 42) ])
       = img_ops (mkImage 1920 1080 []) ++ ops
    /\ List.length ops = List.length lines
    /\ forall i line,
         nth_error lines i = Some line ->
         exists line_width,
           text_width fixed_pitch (mkFont None 42) line = Ok line_width
           /\ nth_error ops i
              = Some (Text ((1920 - line_width) / 2)
                        ((500 - 163.8 / 2)
                         + float_of_Z (Z.of_nat i)
                           * line_spacing (mkFont None 42))
                        line pure_white (mkFont None 42)).
Proof.
  apply (draw_wrapped_centered_text_layout fixed_pitch 1920
           (mkImage 1920 1080 []) _ (lit "aaaa bb cc dddd e") 500
           (mkFont None 42) pure_white 130 163.8).
  vm_compute. reflexivity.
Defined.

End DrawFacts.

(* ------------------------------------------------------------------ *)
(** ** The composer as a whole *)
(* ------------------------------------------------------------------ *)

Module ComposerFacts.
Import PyStr Py PyNum Canvas Composer Spec Fixtures PyStrFacts WrapFacts.
Import GradientFacts DrawFacts.
Local Open Scope Z_scope.

(** The two conditional expressions and the [if not kural_line1] that
    follows them compute the fallback chain, and never raise. *)
Lemma extract_kural_lines_chain (kural_data : record) :
  extract_kural_lines kural_data = Ok (fallback_chain kural_data).
Proof.
  unfold extract_kural_lines, fallback_chain.
  destruct (contains NEWLINE (dict_get kural_data "kural_tamil1" []))
    eqn:Hc; simpl.
  - pose proof (split_on_from_contains NEWLINE _ Hc []) as Hlen.
    fold (split_on NEWLINE (dict_get kural_data "kural_tamil1" [])) in Hlen.
    destruct (split_on NEWLINE (dict_get kural_data "kural_tamil1" []))
      as [| p0 [| p1 rest]]; simpl in Hlen; try lia.
    replace (1 <? Z.of_nat (List.length (p0 :: p1 :: rest))) with true
      by (symmetry; apply Z.ltb_lt; simpl List.length; lia).
    simpl. now destruct p0.
  - now destruct (dict_get kural_data "kural_bamini1" []).
Qed.

Lemma fallback_chain_no_primary (kural_data : record) :
  dict_get kural_data "kural_tamil1" [] = [] ->
  fallback_chain kural_data
  = (dict_get kural_data "kural_bamini1" [],
     dict_get kural_data "kural_bamini2" []).
Proof.
  intros H. unfold fallback_chain. rewrite H. simpl.
  now destruct (dict_get kural_data "kural_bamini1" []).
Qed.

Section Compose.

Variable textbbox : font -> str -> result (Z * Z * Z * Z).
Variable truetype : string -> Z -> result font.
Variable load_default : font.
Variable upper : str -> str.

(** The teal text on a composed canvas is the wrapped secondary block. *)
Lemma compose_secondary_block (kural_data : record) (width height : Z)
      (img : image) :
  compose textbbox truetype load_default upper kural_data width height
  = Ok img ->
  exists fonts lines,
    load_fonts truetype load_default tamil_fonts = Ok fonts
    /\ (let '(_, font_subtitle, _, _) := fonts in
        wrap_lines textbbox font_subtitle (width - (card_margin * 2 + 200))
          (full_kural (fst (fallback_chain kural_data))
                      (snd (fallback_chain kural_data)))
        = Ok lines)
    /\ lines_in_color muted_teal (img_ops img) = lines.
Proof.
  unfold compose. intros H.
  bind_inv H. rename a into img0, Ha into Hnew.
  bind_inv H. rename a into img1, Ha into Hgrad.
  bind_inv H. rename Ha into Hext. destruct a as [line1 line2].
  bind_inv H. rename Ha into Hfonts.
  destruct a as [[[font_title font_subtitle] font_label] font_tiny].
  bind_inv H. destruct a as [img2 h1]. rename Ha into H1.
  bind_inv H. destruct a as [img3 h2]. rename Ha into H2.
  bind_inv H. destruct a as [img4 h3]. rename Ha into H3.
  bind_inv H. destruct a as [img5 h4]. rename Ha into H4.
  injection H as <-. simpl fst in *. simpl snd in *.
  rewrite extract_kural_lines_chain in Hext. injection Hext as Hext.
  rewrite Hext. simpl fst. simpl snd.
  unfold image_new in Hnew.
  destruct ((width <? 0) || (height <? 0)); [discriminate |].
  injection Hnew as <-.
  apply gradient_rows_no_text in Hgrad as [_ Hgrad].
  apply draw_wrapped_centered_text_lines in H1 as (ls1 & _ & _ & C1).
  apply draw_wrapped_centered_text_lines in H2 as (ls2 & _ & _ & C2).
  apply draw_wrapped_centered_text_lines in H3 as (ls3 & W3 & _ & C3).
  apply draw_wrapped_centered_text_lines in H4 as (ls4 & _ & _ & C4).
  exists (font_title, font_subtitle, font_label, font_tiny), ls3.
  split; [exact Hfonts |]. split; [exact W3 |].
  rewrite C4, C3, C2, C1. simpl img_ops.
  rewrite !lines_in_color_app, Hgrad.
  change (color_eqb logo_red muted_teal) with false.
  change (color_eqb pure_white muted_teal) with false.
  change (color_eqb warm_orange muted_teal) with false.
  change (color_eqb muted_teal muted_teal) with true.
  simpl. now rewrite app_nil_r.
Qed.

(** The header always holds a word, so its block always measures. *)
Lemma header_measured (kural_number adhikaram : str) (f : font)
      (fill : color) (max_width width : Z) (img : image) (y : float)
      (e : exn) :
  (forall g s, textbbox g s = Raise e) ->
  draw_wrapped_centered_text textbbox width img
    (header_text upper kural_number adhikaram) y f fill max_width
  = Raise e.
Proof.
  intros Hfail. unfold draw_wrapped_centered_text, wrap_lines, header_text.
  unfold split. simpl. unfold text_width. now rewrite Hfail.
Qed.

Variable save_png : image -> string -> file_system
                    -> file_system * result unit.

(** A run that fails before the save leaves the disk as it was. *)
Lemma create_wallpaper_image_compose_fails (kural_data : record)
      (output_path : string) (width height : Z) (fs : file_system)
      (e : exn) :
  compose textbbox truetype load_default upper kural_data width height
  = Raise e ->
  create_wallpaper_image textbbox truetype load_default upper save_png
    kural_data output_path width height fs
  = (fs, Raise e).
Proof. intros H. unfold create_wallpaper_image. now rewrite H. Qed.

(** A run that reaches the save does nothing else to the disk. *)
Lemma create_wallpaper_image_saves (kural_data : record)
      (output_path : string) (width height : Z) (fs : file_system)
      (img : image) :
  compose textbbox truetype load_default upper kural_data width height
  = Ok img ->
  create_wallpaper_image textbbox truetype load_default upper save_png
    kural_data output_path width height fs
  = (fst (save_png img output_path fs),
     bind (snd (save_png img output_path fs)) (fun _ => Ok output_path)).
Proof.
  intros H. unfold create_wallpaper_image. rewrite H.
  now destruct (save_png img output_path fs).
Qed.

(** When no text can be measured the composition fails. *)
Lemma compose_measure_fails (kural_data : record) (width height : Z)
      (e : exn) :
  (forall g s, textbbox g s = Raise e) ->
  exists e',
    compose textbbox truetype load_default upper kural_data width height
    = Raise e'.
Proof.
  intros Hfail. unfold compose.
  destruct (image_new width height) as [img0 | e0]; cbn [bind]; [| eauto].
  destruct (gradient_rows _ _ _ img0) as [img1 | e1]; cbn [bind]; [| eauto].
  rewrite extract_kural_lines_chain. cbn [bind].
  destruct (fallback_chain kural_data) as [line1 line2].
  destruct (load_fonts truetype load_default tamil_fonts)
    as [[[[ft fs] fl] fy] | e2]; cbn [bind]; [| eauto].
  rewrite (header_measured _ _ _ _ _ _ _ _ e) by exact Hfail.
  cbn [bind]. eauto.
Qed.

End Compose.

(** C6: the two displayed lines are the ordered fallback chain: the primary
    field split at its line separator when it has one, else the two fallback
    fields; and both fallback fields when the first line is still empty.
    The extraction never fails. In particular, for a record whose primary
    field is empty or absent, every composed canvas carries, as its
    secondary (teal) block, the wrapped lines of the two fallback fields
    joined by a line break, in the subtitle font and at the block's width. *)
Theorem kural_lines_fallback_chain :
  (forall kural_data,
      extract_kural_lines kural_data = Ok (fallback_chain kural_data))
  /\ (forall textbbox truetype load_default upper kural_data width height
             img,
         dict_get kural_data "kural_tamil1" [] = [] ->
         compose textbbox truetype load_default upper kural_data width height
         = Ok img ->
         exists fonts lines,
           load_fonts truetype load_default tamil_fonts = Ok fonts
           /\ (let '(_, font_subtitle, _, _) := fonts in
               wrap_lines textbbox font_subtitle
                 (width - (card_margin * 2 + 200))
                 (full_kural (dict_get kural_data "kural_bamini1" [])
                             (dict_get kural_data "kural_bamini2" []))
               = Ok lines)
           /\ lines_in_color muted_teal (img_ops img) = lines).
Proof.
  split; [exact extract_kural_lines_chain |].
  intros textbbox truetype load_default upper kural_data width height img
         Hempty H.
  apply compose_secondary_block in H as (fonts & lines & Hf & Hw & Hl).
  rewrite (fallback_chain_no_primary kural_data Hempty) in Hw.
  exists fonts, lines. auto.
Qed.

Lemma kural_lines_fallback_chain_witness :
  exists img,
    compose fixed_pitch latha_only builtin_font ascii_upper kural_1 1920 1080
    = Ok img
    /\ lines_in_color muted_teal (img_ops img)
       = [lit "mfu Kjy vOj;njy;yhk; Mjp gftd; Kjw;Nw cyF"].
Proof.
  destruct (compose fixed_pitch latha_only builtin_font ascii_upper kural_1
              1920 1080) as [img | e] eqn:E.
  - exists img. split; [reflexivity |].
    destruct (proj2 kural_lines_fallback_chain fixed_pitch latha_only
                builtin_font ascii_upper kural_1 1920 1080 img eq_refl E)
      as (fonts & lines & Hf & Hw & Hl).
    rewrite Hl. vm_compute in Hf. injection Hf as <-.
    vm_compute in Hw. now injection Hw as <-.
  - vm_compute in E. discriminate.
Defined.

(** A primary field with a line separator is used, split at it. *)
Example extract_primary_lines :
  extract_kural_lines
    [ ("kural_tamil1"%string, [2949; 10; 2950]%N);
      ("kural_bamini1"%string, lit "m") ]
  = Ok ([2949%N], [2950%N]).
Proof. reflexivity. Qed.

(** A primary field without a line separator is not used at all. *)
Example extract_unsplit_primary :
  extract_kural_lines
    [ ("kural_tamil1"%string, [2949; 32; 2950]%N);
      ("kural_bamini1"%string, lit "m"); ("kural_bamini2"%string, lit "g") ]
  = Ok (lit "m", lit "g").
Proof. reflexivity. Qed.

(** C9, as the code has it: a run that fails before the save (here shown
    for every error of the composition, and in particular for a negative
    size and for a text measurement that raises) returns that error and
    leaves every file as it was; a run whose composition succeeds touches
    the disk through the one [img.save] call only, so the disk it leaves
    and its outcome are those of that call. *)
Theorem create_wallpaper_image_disk_effect
  (textbbox : font -> str -> result (Z * Z * Z * Z))
  (truetype : string -> Z -> result font) (load_default : font)
  (upper : str -> str)
  (save_png : image -> string -> file_system -> file_system * result unit)
  (kural_data : record) (output_path : string) (width height : Z)
  (fs : file_system) :
  (forall e,
      compose textbbox truetype load_default upper kural_data width height
      = Raise e ->
      create_wallpaper_image textbbox truetype load_default upper save_png
        kural_data output_path width height fs
      = (fs, Raise e))
  /\ (forall img,
         compose textbbox truetype load_default upper kural_data width height
         = Ok img ->
         create_wallpaper_image textbbox truetype load_default upper save_png
           kural_data output_path width height fs
         = (fst (save_png img output_path fs),
            bind (snd (save_png img output_path fs))
                 (fun _ => Ok output_path)))
  /\ (width < 0 \/ height < 0 ->
      create_wallpaper_image textbbox truetype load_default upper save_png
        kural_data output_path width height fs
      = (fs, Raise ValueError))
  /\ (forall e,
         (forall g s, textbbox g s = Raise e) ->
         exists e',
           create_wallpaper_image textbbox truetype load_default upper
             save_png kural_data output_path width height fs
           = (fs, Raise e')).
Proof.
  repeat split.
  - intros e. apply create_wallpaper_image_compose_fails.
  - intros img. apply create_wallpaper_image_saves.
  - intros Hneg. apply create_wallpaper_image_compose_fails.
    unfold compose, image_new.
    replace ((width <? 0) || (height <? 0)) with true; [reflexivity |].
    symmetry. apply orb_true_iff.
    destruct Hneg; [left | right]; now apply Z.ltb_lt.
  - intros e Hfail.
    destruct (compose_measure_fails textbbox truetype load_default upper
                kural_data width height e Hfail) as (e' & He').
    exists e'. now apply create_wallpaper_image_compose_fails.
Qed.

Lemma create_wallpaper_image_disk_effect_witness :
  create_wallpaper_image fixed_pitch latha_only builtin_font ascii_upper
    save_ok kural_1 "wallpaper.png" (-1) 1080 disk_with_old_wallpaper
  = (disk_with_old_wallpaper, Raise ValueError).
Proof.
  apply (create_wallpaper_image_disk_effect fixed_pitch latha_only
           builtin_font ascii_upper save_ok kural_1 "wallpaper.png" (-1)
           1080 disk_with_old_wallpaper).
  left. reflexivity.
Defined.

(** C9 as stated fails: over yesterday's file, a save that fails after its
    first bytes are out leaves a file that is neither the old one nor the
    complete new one, and the composer does nothing about it. *)
Lemma create_wallpaper_image_partial_file :
  exists img,
    compose fixed_pitch latha_only builtin_font ascii_upper kural_1 1920 1080
    = Ok img
    /\ snd (create_wallpaper_image fixed_pitch latha_only builtin_font
              ascii_upper save_disk_full kural_1 "wallpaper.png" 1920 1080
              disk_with_old_wallpaper)
       = Raise OSError
    /\ ~ all_or_nothing
          (disk_with_old_wallpaper "wallpaper.png"%string)
          (fst (create_wallpaper_image fixed_pitch latha_only builtin_font
                  ascii_upper save_disk_full kural_1 "wallpaper.png"
                  1920 1080 disk_with_old_wallpaper) "wallpaper.png"%string)
          (toy_png img).
Proof.
  eexists. split; [vm_compute; reflexivity |].
  split; [vm_compute; reflexivity |].
  intros [H | H]; vm_compute in H; discriminate H.
Qed.

(** With a save that succeeds the run returns the output path. *)
Example create_wallpaper_image_runs :
  snd (create_wallpaper_image fixed_pitch latha_only builtin_font
         ascii_upper save_ok kural_1 "wallpaper.png" 1920 1080
         disk_with_old_wallpaper)
  = Ok "wallpaper.png"%string.
Proof. vm_compute. reflexivity. Qed.

End ComposerFacts.

(* ------------------------------------------------------------------ *)
(** ** Font resolution *)
(* ------------------------------------------------------------------ *)

Module FontFacts.
Import PyStr Py PyNum Canvas Composer Spec Fixtures Observations.
Local Open Scope Z_scope.

Lemma load_fonts_cons (truetype : string -> Z -> result font)
      (load_default : font) (font_path : string) (rest : list string) :
  load_fonts truetype load_default (font_path :: rest)
  = match candidate_fonts truetype font_path with
    | Ok fonts => Ok fonts
    | Raise OSError => load_fonts truetype load_default rest
    | Raise e => Raise e
    end.
Proof. reflexivity. Qed.

(** A candidate fails with an error that one of its four loads raised. *)
Lemma candidate_fonts_error (truetype : string -> Z -> result font)
      (p : string) (e : exn) :
  candidate_fonts truetype p = Raise e ->
  exists size, truetype p size = Raise e.
Proof.
  unfold candidate_fonts. intros H.
  destruct (truetype p 42) eqn:H1; simpl in H; [| injection H as <-; eauto].
  destruct (truetype p 28) eqn:H2; simpl in H; [| injection H as <-; eauto].
  destruct (truetype p 24) eqn:H3; simpl in H; [| injection H as <-; eauto].
  destruct (truetype p 18) eqn:H4; simpl in H;
    [discriminate | injection H as <-; eauto].
Qed.

(** X1: the font loop takes the first candidate, in list order, that loads
    at all four sizes, every candidate before it having raised [OSError];
    when every candidate raised [OSError] the four roles get the built-in
    font; an error other than [OSError] stops the loop and is raised, the
    candidates before it having raised [OSError]. So when loading can only
    raise [OSError] the loop never fails. *)
Theorem load_fonts_first_loadable
  (truetype : string -> Z -> result font) (load_default : font)
  (paths : list string) :
  (forall fonts,
      load_fonts truetype load_default paths = Ok fonts ->
      (Forall (fun p => candidate_fonts truetype p = Raise OSError) paths
       /\ fonts = (load_default, load_default, load_default, load_default))
      \/ exists skipped p rest,
          paths = skipped ++ p :: rest
          /\ Forall (fun q => candidate_fonts truetype q = Raise OSError)
                    skipped
          /\ candidate_fonts truetype p = Ok fonts)
  /\ (forall e,
         load_fonts truetype load_default paths = Raise e ->
         e <> OSError
         /\ exists skipped p rest,
             paths = skipped ++ p :: rest
             /\ Forall (fun q => candidate_fonts truetype q = Raise OSError)
                       skipped
             /\ candidate_fonts truetype p = Raise e)
  /\ ((forall p size e, truetype p size = Raise e -> e = OSError) ->
      exists fonts, load_fonts truetype load_default paths = Ok fonts).
Proof.
  induction paths as [| p rest (IHok & IHerr & IHtot)].
  - split; [| split].
    + intros fonts H. injection H as <-. left. auto.
    + discriminate.
    + intros _. eexists. reflexivity.
  - rewrite load_fonts_cons.
    destruct (candidate_fonts truetype p) as [got | e0] eqn:Hc.
    + split; [| split].
      * intros fonts H. injection H as <-. right.
        exists [], p, rest. auto.
      * discriminate.
      * intros _. eexists. reflexivity.
    + split; [| split].
      * intros fonts H.
        destruct e0; try discriminate H.
        destruct (IHok fonts H) as [[Hall ->] | (sk & q & r' & -> & Hs & Hq)].
        -- left. auto.
        -- right. exists (p :: sk), q, r'. auto.
      * intros e H.
        destruct e0;
          try (injection H as <-; split; [discriminate |];
               exists [], p, rest; auto).
        destruct (IHerr e H) as (Hne & sk & q & r' & -> & Hs & Hq).
        split; [exact Hne |]. exists (p :: sk), q, r'. auto.
      * intros Honly.
        destruct (candidate_fonts_error truetype p e0 Hc) as (size & Hsize).
        rewrite (Honly p size e0 Hsize). now apply IHtot.
Qed.

Lemma load_fonts_first_loadable_witness :
  load_fonts latha_only builtin_font tamil_fonts
  = Ok (mkFont (Some "C:\Windows\Fonts\Latha.ttf"%string) 42,
        mkFont (Some "C:\Windows\Fonts\Latha.ttf"%string) 28,
        mkFont (Some "C:\Windows\Fonts\Latha.ttf"%string) 24,
        mkFont (Some "C:\Windows\Fonts\Latha.ttf"%string) 18)
  /\ exists fonts, load_fonts (fun _ _ => Raise OSError) builtin_font
                     tamil_fonts = Ok fonts.
Proof.
  split; [reflexivity |].
  apply (proj2 (proj2 (load_fonts_first_loadable (fun _ _ => Raise OSError)
                         builtin_font tamil_fonts))).
  intros p size e H. now injection H as <-.
Defined.

End FontFacts.

(* ------------------------------------------------------------------ *)
(** ** More on the word-wrap loop *)
(* ------------------------------------------------------------------ *)

Module WrapMoreFacts.
Import PyStr Py PyNum Canvas Composer Spec Fixtures Observations.
Import PyStrFacts WrapFacts.
Local Open Scope Z_scope.

(** How a list ending in [x] can hold two neighbours. *)
Lemma snoc_neighbours {A} (l : list A) (x : A) (pre : list A) (a b : A)
      (post : list A) :
  l ++ [x] = pre ++ a :: b :: post ->
  (post = [] /\ b = x /\ l = pre ++ [a])
  \/ exists post', post = post' ++ [x] /\ l = pre ++ a :: b :: post'.
Proof.
  intros H. destruct post as [| c post0].
  - left. change (pre ++ [a; b]) with (pre ++ [a] ++ [b]) in H.
    rewrite app_assoc in H. apply app_inj_tail in H as [-> ->]. auto.
  - right. destruct (exists_last (l := c :: post0)) as (post' & z & E);
      [discriminate |].
    rewrite E in *. exists post'.
    change (pre ++ a :: b :: post' ++ [z])
      with (pre ++ (a :: b :: post') ++ [z]) in H.
    rewrite app_assoc in H. apply app_inj_tail in H as [-> ->]. auto.
Qed.

Lemma join_words_not_nil (ws : list str) :
  ws <> [] -> Forall is_word ws -> join [SPACE] ws <> [].
Proof.
  intros Hne Hws. destruct ws as [| w ws]; [contradiction |].
  inversion Hws as [| ? ? [Hw _] _]; subst.
  destruct w; [contradiction |]. destruct ws; discriminate.
Qed.

Section Loop.

Variable textbbox : font -> str -> result (Z * Z * Z * Z).
Variable f : font.
Variable max_width : Z.

(** Closing the line being built keeps the closed lines in order. *)
Lemma close_line_ok (lines cur : list str) :
  wrap_state_ok textbbox f max_width lines cur ->
  Forall single_spaced (lines ++ [join [SPACE] cur])
  /\ Forall (fun l => l <> []) (tl (lines ++ [join [SPACE] cur]))
  /\ breaks_forced textbbox f max_width (lines ++ [join [SPACE] cur]).
Proof.
  intros (Hss & Htl & Hcur & Hnil & Hbr & Hlast).
  assert (Hsplit : split (join [SPACE] cur) = cur)
    by now apply split_join_words.
  split; [| split].
  - apply Forall_app. split; [exact Hss |].
    constructor; [| constructor]. unfold single_spaced. now rewrite Hsplit.
  - destruct lines as [| l0 lines0]; [constructor |].
    simpl. apply Forall_app. split; [exact Htl |].
    constructor; [| constructor].
    apply join_words_not_nil; [| exact Hcur].
    intros E. specialize (Hnil E). discriminate.
  - intros pre line next post word rest E Hnext.
    apply snoc_neighbours in E as [(-> & -> & ->) | (post' & -> & ->)].
    + rewrite Hsplit in Hnext. eapply Hlast; eauto.
    + eapply Hbr; eauto.
Qed.

Lemma wrap_loop_state_ok (words : list str) :
  forall lines cur lines' cur',
    Forall is_word words ->
    wrap_state_ok textbbox f max_width lines cur ->
    wrap_loop textbbox f max_width words lines cur = Ok (lines', cur') ->
    wrap_state_ok textbbox f max_width lines' cur'.
Proof.
  induction words as [| word rest IH];
    intros lines cur lines' cur' Hws Hst H; simpl in H.
  - now injection H as <- <-.
  - inversion Hws as [| ? ? Hword Hrest]; subst.
    bind_inv H. destruct (a <=? max_width) eqn:Hle.
    + apply IH in H; auto.
      destruct Hst as (Hss & Htl & Hcur & Hnil & Hbr & Hlast).
      repeat split; auto.
      * apply Forall_app. auto.
      * intros E. now apply app_eq_nil in E as [_ E].
      * intros pre last w r -> E.
        destruct cur as [| c0 cur0].
        -- specialize (Hnil eq_refl). now destruct pre.
        -- injection E as <- _. eapply Hlast; eauto.
    + apply IH in H; auto.
      destruct (close_line_ok lines cur Hst) as (Hss' & Htl' & Hbr').
      destruct Hst as (Hss & Htl & Hcur & Hnil & Hbr & Hlast).
      repeat split; auto.
      * discriminate.
      * intros pre last w r E Ew. injection Ew as <- <-.
        apply app_inj_tail in E as [_ <-].
        exists a. rewrite split_join_words by exact Hcur.
        split; [exact Ha | lia].
Qed.

Lemma wrap_lines_state_ok (text : str) (lines : list str) :
  wrap_lines textbbox f max_width text = Ok lines ->
  Forall single_spaced lines
  /\ Forall (fun l => l <> []) (tl lines)
  /\ breaks_forced textbbox f max_width lines.
Proof.
  unfold wrap_lines. intros H. bind_inv H. destruct a as [ls cur].
  apply wrap_loop_state_ok in Ha; [| apply split_words |].
  - destruct cur as [| w cur0].
    + injection H as <-.
      destruct Ha as (Hss & Htl & _ & _ & Hbr & _). auto.
    + injection H as <-. exact (close_line_ok ls (w :: cur0) Ha).
  - repeat split; auto; try constructor.
    + intros pre line next post word rest E. now destruct pre.
    + intros pre last word rest E. now destruct pre.
Qed.

(** When every growing prefix of the words fits, the loop never breaks. *)
Lemma wrap_loop_no_break (rest : list str) :
  forall cur,
    (forall k, (List.length cur < k <= List.length (cur ++ rest))%nat ->
               fits textbbox f max_width
                    (join [SPACE] (firstn k (cur ++ rest)))) ->
    wrap_loop textbbox f max_width rest [] cur = Ok ([], cur ++ rest).
Proof.
  induction rest as [| word rest IH]; intros cur Hfit; simpl.
  - now rewrite app_nil_r.
  - destruct (Hfit (S (List.length cur))) as (w & Hw & Hle).
    { rewrite length_app. simpl. lia. }
    replace (firstn (S (List.length cur)) (cur ++ word :: rest))
      with (cur ++ [word]) in Hw.
    2:{ replace (S (List.length cur)) with (List.length cur + 1)%nat by lia.
        rewrite firstn_app_2. reflexivity. }
    rewrite Hw. simpl.
    replace (w <=? max_width) with true by (symmetry; now apply Z.leb_le).
    rewrite IH.
    + now rewrite <- app_assoc.
    + intros k Hk. rewrite <- app_assoc. simpl. apply Hfit.
      rewrite !length_app in *. simpl in *. lia.
Qed.

End Loop.

(** X2: the wrap is greedy: wherever one produced line is followed by
    another, the first word of the second was measured at the end of the
    first and came out wider than the maximum width. No line is broken
    while its next word would still fit. *)
Theorem wrap_lines_breaks_forced
  (textbbox : font -> str -> result (Z * Z * Z * Z)) (f : font)
  (max_width : Z) (text : str) (lines : list str) :
  wrap_lines textbbox f max_width text = Ok lines ->
  breaks_forced textbbox f max_width lines.
Proof. intros H. now apply wrap_lines_state_ok in H. Qed.

Lemma wrap_lines_breaks_forced_witness :
  overflows fixed_pitch builtin_font 30 (lit "bb cc") (lit "dddd")
  /\ overflows fixed_pitch builtin_font 30 (lit "aaaa") (lit "bb").
Proof.
  pose proof (wrap_lines_breaks_forced fixed_pitch builtin_font 30
                (lit "aaaa bb cc dddd e")
                [lit "aaaa"; lit "bb cc"; lit "dddd e"] eq_refl) as H.
  split.
  - apply (H [lit "aaaa"] (lit "bb cc") (lit "dddd e") []
             (lit "dddd") [lit "e"]); reflexivity.
  - apply (H [] (lit "aaaa") (lit "bb cc") [lit "dddd e"]
             (lit "bb") [lit "cc"]); reflexivity.
Defined.

(** X3: every produced line is single-spaced, that is, it consists of its
    words with one space between neighbours and nothing before or after,
    whatever whitespace the text had; and no line but the first can be
    empty. *)
Theorem wrap_lines_single_spaced
  (textbbox : font -> str -> result (Z * Z * Z * Z)) (f : font)
  (max_width : Z) (text : str) (lines : list str) :
  wrap_lines textbbox f max_width text = Ok lines ->
  Forall single_spaced lines /\ Forall (fun l => l <> []) (tl lines).
Proof.
  intros H. apply wrap_lines_state_ok in H as (H1 & H2 & _). auto.
Qed.

Lemma wrap_lines_single_spaced_witness :
  wrap_lines fixed_pitch builtin_font 30
    [32; 97; 97; 9; 9; 98; 10; 10; 99; 99; 99; 99; 99; 32; 32]%N
  = Ok [lit "aa b"; lit "ccccc"]
  /\ Forall single_spaced [lit "aa b"; lit "ccccc"]
  /\ Forall (fun l => l <> []) (tl [lit "aa b"; lit "ccccc"]).
Proof.
  split; [reflexivity |].
  apply (wrap_lines_single_spaced fixed_pitch builtin_font 30
           [32; 97; 97; 9; 9; 98; 10; 10; 99; 99; 99; 99; 99; 32; 32]%N).
  reflexivity.
Defined.

(** A text of whitespace only has no word. *)
Lemma split_blank (text : str) :
  (forall c, In c text -> isspace c = true) -> split text = [].
Proof.
  unfold split. induction text as [| c text IH]; intros H; simpl.
  - reflexivity.
  - rewrite (H c (or_introl eq_refl)). apply IH.
    intros d Hd. apply H. now right.
Qed.

(** X4: a block whose text is empty or whitespace only draws nothing: the
    canvas comes back as it was and the returned height is zero lines times
    the spacing, without a single measurement, so also when measuring would
    raise. *)
Theorem blank_text_draws_nothing
  (textbbox : font -> str -> result (Z * Z * Z * Z)) (width : Z)
  (img : image) (text : str) (y_center : float) (f : font) (fill : color)
  (max_width : Z) :
  (forall c, In c text -> isspace c = true) ->
  draw_wrapped_centered_text textbbox width img text y_center f fill max_width
  = Ok (img, (float_of_Z 0 * line_spacing f)%float).
Proof.
  intros H. unfold draw_wrapped_centered_text, wrap_lines.
  rewrite (split_blank text H). reflexivity.
Qed.

Lemma blank_text_draws_nothing_witness :
  draw_wrapped_centered_text (fun _ _ => Raise UnicodeError) 1920
    (mkImage 1920 1080 []) [32; 10; 9; 12288]%N 500 (mkFont None 42)
    pure_white 1470
  = Ok (mkImage 1920 1080 [], 0%float).
Proof.
  apply (blank_text_draws_nothing (fun _ _ => Raise UnicodeError) 1920
           (mkImage 1920 1080 []) [32; 10; 9; 12288]%N 500 (mkFont None 42)
           pure_white 1470).
  intros c Hc. simpl in Hc.
  repeat (destruct Hc as [<- | Hc]; [reflexivity |]). destruct Hc.
Defined.

(** X11: a text with at least one word, all of whose growing prefixes of
    words (joined by single spaces) fit, is wrapped into exactly one line:
    its words joined by single spaces. *)
Theorem wrap_lines_one_line
  (textbbox : font -> str -> result (Z * Z * Z * Z)) (f : font)
  (max_width : Z) (text : str) :
  split text <> [] ->
  (forall k, (0 < k <= List.length (split text))%nat ->
             fits textbbox f max_width
                  (join [SPACE] (firstn k (split text)))) ->
  wrap_lines textbbox f max_width text = Ok [join [SPACE] (split text)].
Proof.
  intros Hne Hfit. unfold wrap_lines.
  rewrite (wrap_loop_no_break textbbox f max_width (split text) []).
  - simpl. destruct (split text); [contradiction | reflexivity].
  - intros k Hk. simpl in *. apply Hfit. lia.
Qed.

Lemma wrap_lines_one_line_witness :
  wrap_lines fixed_pitch (mkFont None 18) 1620 (lit "~ THIRUVALLUVAR ~")
  = Ok [join [SPACE] (split (lit "~ THIRUVALLUVAR ~"))].
Proof.
  apply (wrap_lines_one_line fixed_pitch (mkFont None 18) 1620
           (lit "~ THIRUVALLUVAR ~")).
  - discriminate.
  - intros k Hk. vm_compute in Hk.
    assert (Hcases : k = 1%nat \/ k = 2%nat \/ k = 3%nat) by lia.
    destruct Hcases as [-> | [-> | ->]];
      (eexists; split; [reflexivity | vm_compute; discriminate]).
Defined.

Section FirstLine.

Variable textbbox : font -> str -> result (Z * Z * Z * Z).
Variable f : font.
Variable max_width : Z.

(** The loop only adds closed lines behind those it has. *)
Lemma wrap_loop_extends (words : list str) :
  forall lines cur lines' cur',
    wrap_loop textbbox f max_width words lines cur = Ok (lines', cur') ->
    exists more, lines' = lines ++ more.
Proof.
  induction words as [| word rest IH];
    intros lines cur lines' cur' H; simpl in H.
  - injection H as <- _. exists []. now rewrite app_nil_r.
  - bind_inv H. destruct (a <=? max_width).
    + now apply IH in H.
    + apply IH in H as (more & ->). rewrite <- app_assoc. eauto.
Qed.

(** Once a word is on the line being built no empty line is closed. *)
Lemma wrap_loop_nonempty (words : list str) :
  forall lines cur lines' cur',
    Forall is_word words -> Forall is_word cur -> cur <> [] ->
    Forall (fun l => l <> []) lines ->
    wrap_loop textbbox f max_width words lines cur = Ok (lines', cur') ->
    Forall (fun l => l <> []) lines' /\ cur' <> [] /\ Forall is_word cur'.
Proof.
  induction words as [| word rest IH];
    intros lines cur lines' cur' Hws Hcur Hne Hlines H; simpl in H.
  - injection H as <- <-. auto.
  - inversion Hws as [| ? ? Hword Hrest]; subst.
    bind_inv H. destruct (a <=? max_width).
    + apply IH in H; auto.
      * apply Forall_app. auto.
      * apply snoc_not_nil.
    + apply IH in H; auto; [discriminate |].
      apply Forall_app. split; [exact Hlines |].
      constructor; [| constructor]. now apply join_words_not_nil.
Qed.

End FirstLine.

(** X14: the one way to an empty line. When the first word of the text is
    measured wider than the maximum width, the wrap returns an empty line in
    front of it, which counts in the returned height like any line; when
    the first word fits, no line of the wrap is empty. *)
Theorem wrap_lines_empty_first_line
  (textbbox : font -> str -> result (Z * Z * Z * Z)) (f : font)
  (max_width : Z) (text : str) (lines : list str) (word : str)
  (others : list str) :
  wrap_lines textbbox f max_width text = Ok lines ->
  split text = word :: others ->
  (fits textbbox f max_width word -> Forall (fun l => l <> []) lines)
  /\ (~ fits textbbox f max_width word -> exists rest, lines = [] :: rest).
Proof.
  intros H Hsplit. pose proof (split_words text) as Hws.
  rewrite Hsplit in Hws. inversion Hws as [| ? ? Hword Hothers]; subst.
  unfold wrap_lines in H. rewrite Hsplit in H. simpl in H.
  bind_inv H. destruct a as [ls cur]. bind_inv Ha. rename a into w.
  destruct (w <=? max_width) eqn:Hle.
  - split.
    + intros _.
      apply wrap_loop_nonempty in Ha as (Hls & Hne & Hcur); auto;
        [| discriminate].
      destruct cur as [| c cur0]; [contradiction |].
      injection H as <-. apply Forall_app. split; [exact Hls |].
      constructor; [| constructor].
      apply (join_words_not_nil (c :: cur0)); [discriminate | exact Hcur].
    + intros Hno. exfalso. apply Hno. exists w. split; [exact Ha0 | lia].
  - split.
    + intros (w' & Hw' & Hle'). rewrite Ha0 in Hw'. injection Hw' as <-. lia.
    + intros _. apply wrap_loop_extends in Ha as (more & ->).
      destruct cur; injection H as <-; simpl; eauto.
Qed.

Lemma wrap_lines_empty_first_line_witness :
  (exists rest, [[]; lit "aaaaaaaaaaaaa"; lit "bb cc"] = [] :: rest)
  /\ Forall (fun l => l <> []) [lit "aaaa"; lit "bb cc"; lit "dddd e"].
Proof.
  split.
  - apply (proj2 (wrap_lines_empty_first_line fixed_pitch builtin_font 30
                    (lit "aaaaaaaaaaaaa bb cc")
                    [[]; lit "aaaaaaaaaaaaa"; lit "bb cc"]
                    (lit "aaaaaaaaaaaaa") [lit "bb"; lit "cc"]
                    eq_refl eq_refl)).
    intros (w & Hw & Hle). vm_compute in Hw. injection Hw as <-.
    vm_compute in Hle. now apply Hle.
  - apply (proj1 (wrap_lines_empty_first_line fixed_pitch builtin_font 30
                    (lit "aaaa bb cc dddd e")
                    [lit "aaaa"; lit "bb cc"; lit "dddd e"]
                    (lit "aaaa") [lit "bb"; lit "cc"; lit "dddd"; lit "e"]
                    eq_refl eq_refl)).
    eexists. split; [reflexivity | vm_compute; discriminate].
Defined.

End WrapMoreFacts.

(* ------------------------------------------------------------------ *)
(** ** The layers of the canvas *)
(* ------------------------------------------------------------------ *)

Module CanvasFacts.
Import PyStr Py PyNum Canvas Composer Spec Fixtures Observations.
Import PyStrFacts WrapFacts.
Local Open Scope Z_scope.

Lemma drawn_text_app (ops1 ops2 : list draw_op) :
  drawn_text (ops1 ++ ops2) = drawn_text ops1 ++ drawn_text ops2.
Proof. apply flat_map_app. Qed.

(** The gradient loop adds one rectangle per row, in row order, and leaves
    the size of the canvas alone. *)
Lemma gradient_rows_ops (width height : Z) (ys : list nat) :
  forall img img',
    gradient_rows width height ys img = Ok img' ->
    img_width img' = img_width img
    /\ img_height img' = img_height img
    /\ exists rows,
        img_ops img' = img_ops img ++ rows
        /\ List.length rows = List.length ys
        /\ drawn_text rows = []
        /\ forall k y,
             nth_error ys k = Some y ->
             exists fill,
               gradient_color (Z.of_nat y) height = Ok fill
               /\ nth_error rows k
                  = Some (Rectangle 0 (Z.of_nat y) width (Z.of_nat y + 1)
                            fill).
Proof.
  induction ys as [| y ys IH]; intros img img' H; simpl in H.
  - injection H as <-. repeat split. exists []. rewrite app_nil_r.
    repeat split. intros [| k] y Hk; discriminate.
  - bind_inv H. rename a into fill.
    apply IH in H as (Hw & Hh & rows & Hops & Hlen & Hdt & Hnth).
    repeat split; auto.
    eexists (_ :: rows). repeat split.
    + rewrite Hops. simpl. now rewrite <- app_assoc.
    + simpl. now rewrite Hlen.
    + exact Hdt.
    + intros [| k] y' Hk; simpl in Hk.
      * injection Hk as <-. exists fill. auto.
      * apply Hnth in Hk. exact Hk.
Qed.

Section Block.

Variable textbbox : font -> str -> result (Z * Z * Z * Z).
Variable width : Z.
Variable f : font.
Variable fill : color.

(** The drawing loop adds centred text operations only, one per line and
    in the order of the lines, and leaves the size of the canvas alone. *)
Lemma draw_lines_texts (start_y line_height : float) (lines : list str) :
  forall i img img',
    draw_lines textbbox width f fill start_y line_height i lines img
    = Ok img' ->
    img_width img' = img_width img
    /\ img_height img' = img_height img
    /\ exists ops,
        img_ops img' = img_ops img ++ ops
        /\ Forall (centred_text textbbox width fill f) ops
        /\ drawn_text ops = block fill f lines.
Proof.
  induction lines as [| line rest IH]; intros i img img' H; simpl in H.
  - injection H as <-. repeat split. exists []. rewrite app_nil_r.
    repeat split. constructor.
  - bind_inv H. rename a into line_width.
    apply IH in H as (Hw & Hh & ops & Hops & Hc & Hdt).
    repeat split; auto.
    eexists (_ :: ops). repeat split.
    + rewrite Hops. simpl. now rewrite <- app_assoc.
    + constructor; [| exact Hc].
      eexists _, _, line, line_width. repeat split; auto.
      * pose proof (Z.div_mod (width - line_width) 2).
        pose proof (Z.mod_pos_bound (width - line_width) 2). lia.
      * pose proof (Z.div_mod (width - line_width) 2).
        pose proof (Z.mod_pos_bound (width - line_width) 2). lia.
    + unfold drawn_text in *. simpl. now rewrite Hdt.
Qed.

Lemma draw_wrapped_centered_text_texts (img img' : image) (text : str)
      (y_center : float) (max_width : Z) (total_height : float) :
  draw_wrapped_centered_text textbbox width img text y_center f fill
    max_width
  = Ok (img', total_height) ->
  img_width img' = img_width img
  /\ img_height img' = img_height img
  /\ exists lines ops,
      wrap_lines textbbox f max_width text = Ok lines
      /\ img_ops img' = img_ops img ++ ops
      /\ Forall (centred_text textbbox width fill f) ops
      /\ drawn_text ops = block fill f lines.
Proof.
  unfold draw_wrapped_centered_text. intros H.
  bind_inv H. rename a into lines. bind_inv H. injection H as <- _.
  apply draw_lines_texts in Ha0 as (Hw & Hh & ops & Hops & Hc & Hdt).
  repeat split; auto. exists lines, ops. auto.
Qed.

End Block.

(** X5: a block draws each of its wrapped lines, once and in order, and
    nothing else: the operations it adds to the canvas are text operations
    in its colour and font whose lines are exactly the wrapped lines; and
    each is centred in the canvas width: with [x] the abscissa of the text
    operation and [w] the measured width of its line, the margin on the
    right, [width - w - x], exceeds the margin on the left, [x], by zero or
    one pixel, also for a line wider than the canvas. *)
Theorem draw_wrapped_centered_text_centred
  (textbbox : font -> str -> result (Z * Z * Z * Z)) (width : Z)
  (img img' : image) (text : str) (y_center : float) (f : font)
  (fill : color) (max_width : Z) (total_height : float) :
  draw_wrapped_centered_text textbbox width img text y_center f fill
    max_width
  = Ok (img', total_height) ->
  exists lines ops,
    wrap_lines textbbox f max_width text = Ok lines
    /\ img_ops img' = img_ops img ++ ops
    /\ List.length ops = List.length lines
    /\ drawn_text ops = block fill f lines
    /\ Forall (centred_text textbbox width fill f) ops.
Proof.
  intros H.
  apply draw_wrapped_centered_text_texts
    in H as (_ & _ & lines & ops & Hwrap & Hops & Hc & Hdt).
  exists lines, ops. repeat split; auto.
  assert (Hlen : List.length (drawn_text ops) = List.length ops).
  { clear Hdt Hops. induction Hc as [| op ops' Hop _ IH]; [reflexivity |].
    destruct Hop as (x & y & line & lw & -> & _).
    unfold drawn_text in *. simpl. now rewrite IH. }
  rewrite <- Hlen, Hdt. unfold block. apply length_map.
Qed.

Lemma draw_wrapped_centered_text_centred_witness :
  exists lines ops,
    wrap_lines fixed_pitch (mkFont None 42) 130 (lit "aaaa bb cc dddd e")
    = Ok lines
    /\ img_ops (mkImage 1920 1080
                  [ Text 918 418.1 (lit "aaaa") pure_white (mkFont None 42);
                    Text 907 472.70000000000005 (lit "bb cc") pure_white
                         (mkFont None 42);
                    Text 897 527.3000000000001 (lit "dddd e") pure_white
                         (mkFont None 42) ])
       = img_ops (mkImage 1920 1080 []) ++ ops
    /\ List.length ops = List.length lines
    /\ drawn_text ops = block pure_white (mkFont None 42) lines
    /\ Forall (centred_text fixed_pitch 1920 pure_white (mkFont None 42))
              ops.
Proof.
  apply (draw_wrapped_centered_text_centred fixed_pitch 1920
           (mkImage 1920 1080 []) _ (lit "aaaa bb cc dddd e") 500
           (mkFont None 42) pure_white 130 163.8).
  vm_compute. reflexivity.
Defined.

Section Compose.

Variable textbbox : font -> str -> result (Z * Z * Z * Z).
Variable truetype : string -> Z -> result font.
Variable load_default : font.
Variable upper : str -> str.

(** Everything a composed canvas holds, in drawing order. *)
Lemma compose_ops (kural_data : record) (width height : Z) (img : image) :
  compose textbbox truetype load_default upper kural_data width height
  = Ok img ->
  exists rows ft fs fl fy ls1 ls2 ls3 ls4 t1 t2 t3 t4,
    img_width img = width /\ img_height img = height
    /\ img_ops img
       = rows
         ++ [ PasteSolid [15; 52; 96; 77];
              PasteRoundedRectangle card_margin card_margin
                (width - card_margin) (height - card_margin) 30
                [15; 52; 96; 160] ]
         ++ (t1 ++ t2 ++ t3 ++ t4)
    /\ List.length rows = Z.to_nat height
    /\ drawn_text rows = []
    /\ (forall y, (y < Z.to_nat height)%nat ->
          exists fill,
            gradient_color (Z.of_nat y) height = Ok fill
            /\ nth_error rows y
               = Some (Rectangle 0 (Z.of_nat y) width (Z.of_nat y + 1)
                         fill))
    /\ load_fonts truetype load_default tamil_fonts = Ok (ft, fs, fl, fy)
    /\ wrap_lines textbbox fl (width - (card_margin * 2 + 100))
         (header_text upper (dict_get kural_data "kural_no" [])
            (dict_get kural_data "adhikarm_english" []))
       = Ok ls1
    /\ wrap_lines textbbox ft (width - (card_margin * 2 + 150))
         (dict_get kural_data "kuralvilakam_english" [])
       = Ok ls2
    /\ wrap_lines textbbox fs (width - (card_margin * 2 + 200))
         (full_kural (fst (fallback_chain kural_data))
                     (snd (fallback_chain kural_data)))
       = Ok ls3
    /\ wrap_lines textbbox fy (width - card_margin * 2)
         (lit "~ THIRUVALLUVAR ~")
       = Ok ls4
    /\ (Forall (centred_text textbbox width warm_orange fl) t1
        /\ Forall (centred_text textbbox width pure_white ft) t2
        /\ Forall (centred_text textbbox width muted_teal fs) t3
        /\ Forall (centred_text textbbox width logo_red fy) t4)
    /\ (drawn_text t1 = block warm_orange fl ls1
        /\ drawn_text t2 = block pure_white ft ls2
        /\ drawn_text t3 = block muted_teal fs ls3
        /\ drawn_text t4 = block logo_red fy ls4).
Proof.
  unfold compose. intros H.
  bind_inv H. rename a into img0, Ha into Hnew.
  bind_inv H. rename a into img1, Ha into Hgrad.
  bind_inv H. rename Ha into Hext. destruct a as [line1 line2].
  bind_inv H. rename Ha into Hfonts.
  destruct a as [[[ft fs] fl] fy].
  bind_inv H. destruct a as [img2 h1]. rename Ha into H1.
  bind_inv H. destruct a as [img3 h2]. rename Ha into H2.
  bind_inv H. destruct a as [img4 h3]. rename Ha into H3.
  bind_inv H. destruct a as [img5 h4]. rename Ha into H4.
  injection H as <-. simpl fst in *. simpl snd in *.
  rewrite ComposerFacts.extract_kural_lines_chain in Hext.
  injection Hext as Hext.
  unfold image_new in Hnew.
  destruct ((width <? 0) || (height <? 0)); [discriminate |].
  injection Hnew as <-.
  apply gradient_rows_ops
    in Hgrad as (Gw & Gh & rows & Gops & Glen & Gdt & Gnth).
  apply draw_wrapped_centered_text_texts
    in H1 as (W1 & E1 & ls1 & t1 & L1 & O1 & C1 & D1).
  apply draw_wrapped_centered_text_texts
    in H2 as (W2 & E2 & ls2 & t2 & L2 & O2 & C2 & D2).
  apply draw_wrapped_centered_text_texts
    in H3 as (W3 & E3 & ls3 & t3 & L3 & O3 & C3 & D3).
  apply draw_wrapped_centered_text_texts
    in H4 as (W4 & E4 & ls4 & t4 & L4 & O4 & C4 & D4).
  simpl in *.
  exists rows, ft, fs, fl, fy, ls1, ls2, ls3, ls4, t1, t2, t3, t4.
  rewrite Hext. simpl fst. simpl snd.
  rewrite length_seq in Glen.
  repeat split; auto; try congruence.
  - rewrite O4, O3, O2, O1, Gops. rewrite <- !app_assoc. reflexivity.
  - intros y Hy. apply (Gnth y y). rewrite nth_error_seq.
    destruct (Nat.ltb_spec y (Z.to_nat height)); [reflexivity | lia].
Qed.

End Compose.

End CanvasFacts.

(* ------------------------------------------------------------------ *)
(** ** More on the composer *)
(* ------------------------------------------------------------------ *)

Module ComposerMoreFacts.
Import PyStr Py PyNum Canvas Composer Spec Fixtures Observations.
Import PyStrFacts WrapFacts GradientFacts CanvasFacts.
Local Open Scope Z_scope.

(** X6: a composed canvas has the size asked for and is layered in this
    order: one rectangle per scanline, row [y] covering [(0, y)] to
    [(width, y + 1)] in that row's gradient colour; then the translucent
    overlay; then the rounded card, 150 pixels inside each edge; then text
    operations and nothing else. No text is ever drawn under the card. *)
Theorem compose_layers
  (textbbox : font -> str -> result (Z * Z * Z * Z))
  (truetype : string -> Z -> result font) (load_default : font)
  (upper : str -> str) (kural_data : record) (width height : Z)
  (img : image) :
  compose textbbox truetype load_default upper kural_data width height
  = Ok img ->
  img_width img = width /\ img_height img = height
  /\ exists rows texts,
      img_ops img
      = rows
        ++ [ PasteSolid [15; 52; 96; 77];
             PasteRoundedRectangle 150 150 (width - 150) (height - 150) 30
               [15; 52; 96; 160] ]
        ++ texts
      /\ List.length rows = Z.to_nat height
      /\ (forall y, (y < Z.to_nat height)%nat ->
            exists fill,
              gradient_color (Z.of_nat y) height = Ok fill
              /\ nth_error rows y
                 = Some (Rectangle 0 (Z.of_nat y) width (Z.of_nat y + 1)
                           fill))
      /\ Forall (fun op => exists x y line fill f, op = Text x y line fill f)
                texts.
Proof.
  intros H.
  apply compose_ops in H
    as (rows & ft & fs & fl & fy & ls1 & ls2 & ls3 & ls4 & t1 & t2 & t3 & t4
        & Hw & Hh & Hops & Hlen & _ & Hrows & _ & _ & _ & _ & _
        & (C1 & C2 & C3 & C4) & _).
  split; [exact Hw |]. split; [exact Hh |].
  exists rows, (t1 ++ t2 ++ t3 ++ t4). repeat split; auto.
  assert (Htext : forall fill f ops,
             Forall (centred_text textbbox width fill f) ops ->
             Forall (fun op => exists x y line fill f,
                         op = Text x y line fill f) ops).
  { intros fill f ops. apply Forall_impl.
    intros op (x & y & line & lw & -> & _). eauto 6. }
  rewrite !Forall_app. eauto 8.
Qed.

Lemma compose_layers_witness :
  exists img,
    compose fixed_pitch latha_only builtin_font ascii_upper kural_1 1920 1080
    = Ok img
    /\ nth_error (img_ops img) (Z.to_nat 1080)
       = Some (PasteSolid [15; 52; 96; 77])
    /\ nth_error (img_ops img) (Z.to_nat 1079)
       = Some (Rectangle 0 1079 1920 1080 [15; 32; 61]).
Proof.
  destruct (compose fixed_pitch latha_only builtin_font ascii_upper kural_1
              1920 1080) as [img | e] eqn:E;
    [| vm_compute in E; discriminate].
  exists img. split; [reflexivity |].
  destruct (compose_layers fixed_pitch latha_only builtin_font ascii_upper
              kural_1 1920 1080 img E)
    as (_ & _ & rows & texts & Hops & Hlen & Hrows & _).
  rewrite Hops. split.
  - rewrite nth_error_app2 by (rewrite Hlen; apply Nat.le_refl).
    rewrite Hlen, Nat.sub_diag. reflexivity.
  - rewrite nth_error_app1 by (rewrite Hlen; vm_compute; apply Nat.le_refl).
    destruct (Hrows (Z.to_nat 1079)) as (fill & Hfill & Hrow);
      [vm_compute; apply Nat.le_refl |].
    rewrite Hrow. vm_compute in Hfill. injection Hfill as <-. reflexivity.
Defined.

(** X7: the text of a composed canvas is, in drawing order, four blocks:
    the header (the text ["THIRUKKURAL <number> <separator> <CHAPTER>"], in
    the label font and warm orange, wrapped to the width less 400), the
    explanation (title font, white, width less 450), the couplet (subtitle
    font, teal, width less 500) and the attribution
    ["~ THIRUVALLUVAR ~"] (tiny font, red, width less 300); the four fonts
    are those of the font loop. *)
Theorem compose_text_blocks
  (textbbox : font -> str -> result (Z * Z * Z * Z))
  (truetype : string -> Z -> result font) (load_default : font)
  (upper : str -> str) (kural_data : record) (width height : Z)
  (img : image) :
  compose textbbox truetype load_default upper kural_data width height
  = Ok img ->
  exists font_title font_subtitle font_label font_tiny
         header title couplet footer,
    load_fonts truetype load_default tamil_fonts
    = Ok (font_title, font_subtitle, font_label, font_tiny)
    /\ wrap_lines textbbox font_label (width - 400)
         (header_text upper (dict_get kural_data "kural_no" [])
            (dict_get kural_data "adhikarm_english" []))
       = Ok header
    /\ wrap_lines textbbox font_title (width - 450)
         (dict_get kural_data "kuralvilakam_english" [])
       = Ok title
    /\ wrap_lines textbbox font_subtitle (width - 500)
         (full_kural (fst (fallback_chain kural_data))
                     (snd (fallback_chain kural_data)))
       = Ok couplet
    /\ wrap_lines textbbox font_tiny (width - 300) (lit "~ THIRUVALLUVAR ~")
       = Ok footer
    /\ drawn_text (img_ops img)
       = block warm_orange font_label header
         ++ block pure_white font_title title
         ++ block muted_teal font_subtitle couplet
         ++ block logo_red font_tiny footer.
Proof.
  intros H.
  apply compose_ops in H
    as (rows & ft & fs & fl & fy & ls1 & ls2 & ls3 & ls4 & t1 & t2 & t3 & t4
        & _ & _ & Hops & _ & Hdt & _ & Hfonts & W1 & W2 & W3 & W4
        & _ & (D1 & D2 & D3 & D4)).
  exists ft, fs, fl, fy, ls1, ls2, ls3, ls4.
  change (width - (card_margin * 2 + 100)) with (width - 400) in W1.
  change (width - (card_margin * 2 + 150)) with (width - 450) in W2.
  change (width - (card_margin * 2 + 200)) with (width - 500) in W3.
  change (width - card_margin * 2) with (width - 300) in W4.
  repeat split; auto.
  rewrite Hops, !drawn_text_app, Hdt, D1, D2, D3, D4. reflexivity.
Qed.

Lemma compose_text_blocks_witness :
  exists img,
    compose fixed_pitch latha_only builtin_font ascii_upper kural_1 1920 1080
    = Ok img
    /\ map (fun t => fst (fst t)) (drawn_text (img_ops img))
       = [ [84; 72; 73; 82; 85; 75; 75; 85; 82; 65; 76; 32; 49; 32; 226;
            8364; 162; 32; 84; 72; 69; 32; 80; 82; 65; 73; 83; 69; 32; 79;
            70; 32; 71; 79; 68]%N;
           lit "As the letter A is the first of all letters, so the eternal God is";
           lit "first in the world";
           lit "mfu Kjy vOj;njy;yhk; Mjp gftd; Kjw;Nw cyF";
           lit "~ THIRUVALLUVAR ~" ].
Proof.
  destruct (compose fixed_pitch latha_only builtin_font ascii_upper kural_1
              1920 1080) as [img | e] eqn:E;
    [| vm_compute in E; discriminate].
  exists img. split; [reflexivity |].
  destruct (compose_text_blocks fixed_pitch latha_only builtin_font
              ascii_upper kural_1 1920 1080 img E)
    as (ft & fs & fl & fy & h & t & c & fo & Hf & W1 & W2 & W3 & W4 & Hdt).
  rewrite Hdt. vm_compute in Hf. injection Hf as <- <- <- <-.
  vm_compute in W1. injection W1 as <-.
  vm_compute in W2. injection W2 as <-.
  vm_compute in W3. injection W3 as <-.
  vm_compute in W4. injection W4 as <-.
  reflexivity.
Defined.

(** X8: the composer reads six fields of the record and no other; two
    records that agree on them (through [get] with the empty default, so a
    missing field is the same as an empty one) are composed into the same
    canvas and leave the same disk and result. *)
Theorem compose_reads_six_fields
  (textbbox : font -> str -> result (Z * Z * Z * Z))
  (truetype : string -> Z -> result font) (load_default : font)
  (upper : str -> str)
  (save_png : image -> string -> file_system -> file_system * result unit)
  (kural_data other : record) (output_path : string) (width height : Z)
  (fs : file_system) :
  (forall key, In key keys_read ->
               dict_get kural_data key [] = dict_get other key []) ->
  compose textbbox truetype load_default upper kural_data width height
  = compose textbbox truetype load_default upper other width height
  /\ create_wallpaper_image textbbox truetype load_default upper save_png
       kural_data output_path width height fs
     = create_wallpaper_image textbbox truetype load_default upper save_png
         other output_path width height fs.
Proof.
  intros H.
  assert (Hc : compose textbbox truetype load_default upper kural_data
                 width height
               = compose textbbox truetype load_default upper other
                   width height).
  { unfold compose, extract_kural_lines.
    rewrite (H "kural_tamil1"%string), (H "kural_bamini1"%string),
      (H "kural_bamini2"%string), (H "kuralvilakam_english"%string),
      (H "kural_no"%string), (H "adhikarm_english"%string);
      try (simpl; tauto). }
  split; [exact Hc |]. unfold create_wallpaper_image. now rewrite Hc.
Qed.

Lemma compose_reads_six_fields_witness :
  compose fixed_pitch latha_only builtin_font ascii_upper kural_1 1920 1080
  = compose fixed_pitch latha_only builtin_font ascii_upper kural_1_more
      1920 1080
  /\ create_wallpaper_image fixed_pitch latha_only builtin_font ascii_upper
       save_ok kural_1 "wallpaper.png" 1920 1080 disk_with_old_wallpaper
     = create_wallpaper_image fixed_pitch latha_only builtin_font
         ascii_upper save_ok kural_1_more "wallpaper.png" 1920 1080
         disk_with_old_wallpaper.
Proof.
  apply (compose_reads_six_fields fixed_pitch latha_only builtin_font
           ascii_upper save_ok kural_1 kural_1_more).
  intros key Hkey. simpl in Hkey.
  repeat (destruct Hkey as [<- | Hkey]; [reflexivity |]). destruct Hkey.
Defined.

(** Cutting at the first separator. *)
Lemma split_on_from_cut (sep : char) (a : str) :
  contains sep a = false ->
  forall cur b,
    split_on_from sep cur (a ++ sep :: b)
    = (cur ++ a) :: split_on_from sep [] b.
Proof.
  unfold contains. induction a as [| c a IH]; intros H cur b; simpl in *.
  - now rewrite N.eqb_refl, app_nil_r.
  - apply orb_false_iff in H as [Hc Ha]. rewrite Hc.
    rewrite IH by exact Ha. now rewrite <- app_assoc.
Qed.

Lemma split_on_from_whole (sep : char) (a : str) :
  contains sep a = false ->
  forall cur, split_on_from sep cur a = [cur ++ a].
Proof.
  unfold contains. induction a as [| c a IH]; intros H cur; simpl in *.
  - now rewrite app_nil_r.
  - apply orb_false_iff in H as [Hc Ha]. rewrite Hc.
    rewrite IH by exact Ha. now rewrite <- app_assoc.
Qed.

Lemma contains_cut (sep : char) (a b : str) :
  contains sep (a ++ sep :: b) = true.
Proof.
  unfold contains. rewrite existsb_app. simpl.
  rewrite N.eqb_refl. apply orb_true_iff. right. reflexivity.
Qed.

(** X9: a primary field made of a non-empty first line, a line break and a
    second line gives back exactly these two lines, and whatever follows a
    second line break is dropped; a primary field that starts with a line
    break is set aside for the two fallback fields. *)
Theorem extract_kural_lines_two_lines
  (kural_data : record) (line1 line2 tail : str) :
  contains NEWLINE line1 = false ->
  contains NEWLINE line2 = false ->
  tail = [] \/ (exists more, tail = NEWLINE :: more) ->
  dict_get kural_data "kural_tamil1" [] = line1 ++ NEWLINE :: line2 ++ tail ->
  extract_kural_lines kural_data
  = Ok (match line1 with
        | [] => (dict_get kural_data "kural_bamini1" [],
                 dict_get kural_data "kural_bamini2" [])
        | _ => (line1, line2)
        end).
Proof.
  intros H1 H2 Htail Hfield.
  rewrite ComposerFacts.extract_kural_lines_chain.
  unfold fallback_chain. rewrite Hfield, contains_cut.
  unfold split_on. rewrite split_on_from_cut by exact H1.
  destruct Htail as [-> | (more & ->)].
  - rewrite app_nil_r, split_on_from_whole by exact H2.
    simpl. now destruct line1.
  - rewrite split_on_from_cut by exact H2.
    simpl. now destruct line1.
Qed.

Lemma extract_kural_lines_two_lines_witness :
  extract_kural_lines
    [("kural_tamil1"%string, [2949; 2965; 10; 2950; 10; 2951; 10]%N)]
  = Ok ([2949; 2965]%N, [2950]%N).
Proof.
  apply (extract_kural_lines_two_lines
           [("kural_tamil1"%string, [2949; 2965; 10; 2950; 10; 2951; 10]%N)]
           [2949; 2965]%N [2950]%N [10; 2951; 10]%N).
  - reflexivity.
  - reflexivity.
  - right. eexists. reflexivity.
  - reflexivity.
Defined.

(** X10: on the checked canvas heights the gradient is a smooth fade that
    never reverses: the top row has exactly the top colour (26, 26, 46),
    and from each row to the next red does not rise while green and blue do
    not fall, every channel staying between its top and bottom value, so
    every row is a valid RGB colour. *)
Theorem gradient_never_reverses (height y : Z) :
  In height checked_heights ->
  0 <= y -> y + 1 < height ->
  gradient_color 0 height = Ok [26; 26; 46]
  /\ exists r g b r' g' b',
      gradient_color y height = Ok [r; g; b]
      /\ gradient_color (y + 1) height = Ok [r'; g'; b']
      /\ 15 <= r' <= r /\ r <= 26
      /\ 26 <= g <= g' /\ g' <= 33
      /\ 46 <= b <= b' /\ b' <= 62.
Proof.
  intros Hh Hy Hy'.
  rewrite !gradient_color_exact by (auto; lia).
  unfold exact_row_color, interpolate_exact, top_color, bottom_color.
  rewrite !Z.quot_div_nonneg by lia.
  split.
  - rewrite !Z.mul_0_r, !Z.add_0_r, !Z.div_mul by lia. reflexivity.
  - do 6 eexists. split; [reflexivity |]. split; [reflexivity |].
    repeat split;
      first [ apply Z.div_le_mono; lia
            | apply Z.div_le_lower_bound; lia
            | apply Z.div_le_upper_bound; lia ].
Qed.

Lemma gradient_never_reverses_witness :
  gradient_color 0 1080 = Ok [26; 26; 46]
  /\ exists r g b r' g' b',
      gradient_color 539 1080 = Ok [r; g; b]
      /\ gradient_color (539 + 1) 1080 = Ok [r'; g'; b']
      /\ 15 <= r' <= r /\ r <= 26
      /\ 26 <= g <= g' /\ g' <= 33
      /\ 46 <= b <= b' /\ b' <= 62.
Proof.
  apply (gradient_never_reverses 1080 539); [vm_compute; tauto | lia | lia].
Defined.

End ComposerMoreFacts.

(* ------------------------------------------------------------------ *)
(** ** The caller *)
(* ------------------------------------------------------------------ *)

Module GeneratorFacts.
Import PyStr Py PyNum Canvas DataProvider Composer Spec Fixtures.
Import Observations Generator.
Local Open Scope Z_scope.

Section Generate.

Variable read_text : string -> result str.
Variable json_decode : str -> result json.
Variable randbelow : nat -> nat.
Variable today : string.
Variable create_wallpaper_image_default :
  json -> string -> file_system -> file_system * result string.

(** On a list of entries [generate_wallpaper] goes on with the properties
    of one of them. *)
Lemma generate_wallpaper_on_entries (text : str) (fields : dict json)
      (entries : list json) (output_path : option string)
      (fs : file_system) :
  read_text "thirukural.json" = Ok text ->
  json_decode text = Ok (JObj fields) ->
  dict_lookup "features" fields = Some (JArr entries) ->
  entries <> [] ->
  (forall n, (0 < n)%nat -> (randbelow n < n)%nat) ->
  exists entry,
    In entry entries
    /\ generate_wallpaper read_text json_decode randbelow today
         create_wallpaper_image_default output_path fs
       = match getitem entry "properties" with
         | Raise e => (fs, Raise e)
         | Ok kural =>
             create_wallpaper_image_default kural
               match output_path with
               | None => ("wallpaper_" ++ today ++ ".png")%string
               | Some p => p
               end fs
         end.
Proof.
  intros Hread Hdec Hfeat Hne Hrand.
  destruct (DataProviderFacts.random_choice_member randbelow entries Hne)
    as (entry & Hentry & Hin).
  { apply Hrand. destruct entries; [contradiction | simpl; lia]. }
  exists entry. split; [exact Hin |].
  unfold generate_wallpaper, load_thirukural_data.
  rewrite Hread. simpl. rewrite Hdec. simpl. rewrite Hfeat.
  unfold get_random_kural_value. simpl. rewrite Hentry. simpl.
  reflexivity.
Qed.

End Generate.

(** X12: [generate_wallpaper] stops before anything is composed or written
    when the data file is unusable, and raises the error of the step that
    failed with the disk as it was: the error of reading the file or of
    decoding it; [KeyError('features')] for an object without that key;
    [IndexError] for an empty list of features; [KeyError('properties')]
    when the features are objects without that key. *)
Theorem generate_wallpaper_bad_data
  (read_text : string -> result str) (json_decode : str -> result json)
  (randbelow : nat -> nat) (today : string)
  (create_wallpaper_image_default :
     json -> string -> file_system -> file_system * result string)
  (output_path : option string) (fs : file_system) :
  (forall e,
      read_text "thirukural.json"%string = Raise e ->
      generate_wallpaper read_text json_decode randbelow today
        create_wallpaper_image_default output_path fs
      = (fs, Raise e))
  /\ (forall text e,
         read_text "thirukural.json"%string = Ok text ->
         json_decode text = Raise e ->
         generate_wallpaper read_text json_decode randbelow today
           create_wallpaper_image_default output_path fs
         = (fs, Raise e))
  /\ (forall text fields,
         read_text "thirukural.json"%string = Ok text ->
         json_decode text = Ok (JObj fields) ->
         (dict_lookup "features" fields = None ->
          generate_wallpaper read_text json_decode randbelow today
            create_wallpaper_image_default output_path fs
          = (fs, Raise (KeyError "features")))
         /\ (dict_lookup "features" fields = Some (JArr []) ->
             generate_wallpaper read_text json_decode randbelow today
               create_wallpaper_image_default output_path fs
             = (fs, Raise IndexError))
         /\ (forall entries,
                dict_lookup "features" fields = Some (JArr entries) ->
                entries <> [] ->
                (forall n, (0 < n)%nat -> (randbelow n < n)%nat) ->
                (forall entry,
                    In entry entries ->
                    exists entry_fields,
                      entry = JObj entry_fields
                      /\ dict_lookup "properties" entry_fields = None) ->
                generate_wallpaper read_text json_decode randbelow today
                  create_wallpaper_image_default output_path fs
                = (fs, Raise (KeyError "properties")))).
Proof.
  split; [| split].
  - intros e H. unfold generate_wallpaper, load_thirukural_data.
    now rewrite H.
  - intros text e Hread H. unfold generate_wallpaper, load_thirukural_data.
    rewrite Hread. simpl. now rewrite H.
  - intros text fields Hread Hdec. split; [| split].
    + intros H. unfold generate_wallpaper, load_thirukural_data.
      rewrite Hread. simpl. rewrite Hdec. simpl. now rewrite H.
    + intros H. unfold generate_wallpaper, load_thirukural_data.
      rewrite Hread. simpl. rewrite Hdec. simpl. now rewrite H.
    + intros entries Hfeat Hne Hrand Hall.
      destruct (generate_wallpaper_on_entries read_text json_decode randbelow
                  today create_wallpaper_image_default text fields entries
                  output_path fs Hread Hdec Hfeat Hne Hrand)
        as (entry & Hin & ->).
      destruct (Hall entry Hin) as (entry_fields & -> & Hnone).
      simpl. now rewrite Hnone.
Qed.

Lemma generate_wallpaper_bad_data_witness :
  generate_wallpaper (fun _ => Raise OSError) decode_two last_index
    "2025-12-19" (fun _ path fs => (fs, Ok path)) None
    disk_with_old_wallpaper
  = (disk_with_old_wallpaper, Raise OSError)
  /\ generate_wallpaper read_fixture
       (fun _ => Ok (JObj [("features"%string, JArr [JObj []; JObj []])]))
       last_index "2025-12-19" (fun _ path fs => (fs, Ok path)) None
       disk_with_old_wallpaper
     = (disk_with_old_wallpaper, Raise (KeyError "properties")).
Proof.
  split.
  - apply (proj1 (generate_wallpaper_bad_data (fun _ => Raise OSError)
                    decode_two last_index "2025-12-19"
                    (fun _ path fs => (fs, Ok path)) None
                    disk_with_old_wallpaper)).
    reflexivity.
  - apply (proj2 (proj2 (proj2 (proj2
             (generate_wallpaper_bad_data read_fixture
                (fun _ => Ok (JObj [("features"%string,
                                     JArr [JObj []; JObj []])]))
                last_index "2025-12-19" (fun _ path fs => (fs, Ok path))
                None disk_with_old_wallpaper))
             (lit "{features}")
             [("features"%string, JArr [JObj []; JObj []])]
             eq_refl eq_refl)) [JObj []; JObj []] eq_refl).
    + discriminate.
    + intros n Hn. unfold last_index. lia.
    + intros entry [<- | [<- | []]]; exists []; auto.
Defined.

(** X13: end to end. When the data file decodes to an object whose
    ['features'] is a non-empty list of entries, each with a ['properties']
    object that the composer reads as a record (text fields, the couplet
    number possibly an integer), and the generator draws in range, then
    [generate_wallpaper], calling [create_wallpaper_image] with its default
    size, composes the record of one of the entries at 1920 by 1080 and
    saves it under the path given or, by default, under
    ["wallpaper_<ISO date of today>.png"]; its disk and result are those of
    [create_wallpaper_image] on that record, path and size. *)
Theorem generate_wallpaper_composes_an_entry
  (read_text : string -> result str) (json_decode : str -> result json)
  (randbelow : nat -> nat) (today : string)
  (textbbox : font -> str -> result (Z * Z * Z * Z))
  (truetype : string -> Z -> result font) (load_default : font)
  (upper : str -> str)
  (save_png : image -> string -> file_system -> file_system * result unit)
  (create_other : json -> string -> file_system
                  -> file_system * result string)
  (text : str) (fields : dict json) (entries : list json)
  (output_path : option string) (fs : file_system) :
  read_text "thirukural.json"%string = Ok text ->
  json_decode text = Ok (JObj fields) ->
  dict_lookup "features" fields = Some (JArr entries) ->
  entries <> [] ->
  (forall n, (0 < n)%nat -> (randbelow n < n)%nat) ->
  (forall entry,
      In entry entries ->
      exists kural r,
        getitem entry "properties" = Ok kural
        /\ record_of_properties kural = Some r) ->
  exists entry kural r,
    In entry entries
    /\ getitem entry "properties" = Ok kural
    /\ record_of_properties kural = Some r
    /\ generate_wallpaper read_text json_decode randbelow today
         (create_wallpaper_image_call textbbox truetype load_default upper
            save_png create_other)
         output_path fs
       = create_wallpaper_image textbbox truetype load_default upper save_png
           r
           match output_path with
           | None => ("wallpaper_" ++ today ++ ".png")%string
           | Some p => p
           end 1920 1080 fs.
Proof.
  intros Hread Hdec Hfeat Hne Hrand Hall.
  destruct (generate_wallpaper_on_entries read_text json_decode randbelow
              today
              (create_wallpaper_image_call textbbox truetype load_default
                 upper save_png create_other)
              text fields entries output_path fs Hread Hdec Hfeat Hne Hrand)
    as (entry & Hin & Hgen).
  destruct (Hall entry Hin) as (kural & r & Hkural & Hr).
  exists entry, kural, r. repeat split; auto.
  rewrite Hgen, Hkural. unfold create_wallpaper_image_call.
  now rewrite Hr.
Qed.

Lemma generate_wallpaper_composes_an_entry_witness :
  record_of_properties properties_2
  = Some [ ("kural_no", lit "2");
           ("adhikarm_english", lit "The Praise of God");
           ("kural_tamil1", [2949; 2965; 10; 2950; 2965]%N);
           ("kuralvilakam_english",
             lit "What profit have those derived from learning") ]%string
  /\ exists entry kural r,
      In entry [ JObj [("properties"%string, text_record kural_1)];
                 JObj [ ("type"%string, JStr (lit "Feature"));
                        ("properties"%string, properties_2) ] ]
      /\ getitem entry "properties" = Ok kural
      /\ record_of_properties kural = Some r
      /\ generate_wallpaper read_two decode_mixed last_index "2025-12-19"
           (create_wallpaper_image_call fixed_pitch latha_only builtin_font
              ascii_upper save_ok (fun _ _ fs => (fs, Raise TypeError)))
           None disk_with_old_wallpaper
         = create_wallpaper_image fixed_pitch latha_only builtin_font
             ascii_upper save_ok r "wallpaper_2025-12-19.png" 1920 1080
             disk_with_old_wallpaper.
Proof.
  split; [reflexivity |].
  apply (generate_wallpaper_composes_an_entry read_two decode_mixed
           last_index "2025-12-19" fixed_pitch latha_only builtin_font
           ascii_upper save_ok (fun _ _ fs => (fs, Raise TypeError))
           (lit "{features}")
           [ ("type"%string, JStr (lit "FeatureCollection"));
             ("features"%string,
              JArr [ JObj [("properties"%string, text_record kural_1)];
                     JObj [ ("type"%string, JStr (lit "Feature"));
                            ("properties"%string, properties_2) ] ]) ]
           _ None disk_with_old_wallpaper);
    try reflexivity.
  - discriminate.
  - intros n Hn. unfold last_index. lia.
  - intros entry [<- | [<- | []]]; eexists; eexists; split; reflexivity.
Defined.

End GeneratorFacts.
